(** * contentful_management.errors: the error classes and [get_error]

    A shallow embedding of [contentful_management/errors.py] and the
    properties of its message composition and status-code dispatch.

    Conventions of the embedding.
    - A Python [str] is a [string], one character per code point (code
      points above 255 are outside the model).  The interpreter modelled is
      Python 3: [str] is the only string class.
    - A Python [int] is a [Z].
    - A value decoded from JSON is a [pyval]; dictionaries keep insertion
      order, which [str] shows.
    - A raised exception is the [Raise] case of [result]; the exception
      classes that the module can meet are the constructors of [exn]. *)

From Stdlib Require Import ZArith List String Ascii Bool Lia.
From Stdlib Require Import DecimalString.
Import ListNotations.

Local Open Scope string_scope.
Local Open Scope Z_scope.
Set Warnings "-register-all".

(** ** Exceptions and results *)

Inductive exn : Type :=
| ParseError       (* what [response.json()] raises on a malformed body *)
| AttributeError
| KeyError
| TypeError
| ValueError.

Inductive result (A : Type) : Type :=
| Ok (a : A)
| Raise (e : exn).

Arguments Ok {A} a.
Arguments Raise {A} e.

Definition rbind {A B : Type} (c : result A) (f : A -> result B) : result B :=
  match c with
  | Ok a => f a
  | Raise e => Raise e
  end.

Declare Scope result_scope.
Delimit Scope result_scope with result.
Notation "x <- c ;; k" := (rbind c (fun x => k))
  (at level 61, c at next level, right associativity) : result_scope.

(** [for x in xs: ...] collecting results, stopping at the first exception. *)
Fixpoint rmap {A B : Type} (f : A -> result B) (xs : list A) : result (list B) :=
  match xs with
  | [] => Ok []
  | x :: xs' =>
      (y <- f x ;; ys <- rmap f xs' ;; Ok (y :: ys))%result
  end.

(** ** Python values *)

Inductive pyval : Type :=
| PNone
| PBool (b : bool)
| PInt (n : Z)
| PFloat (repr : string)   (* a float, carried by its [repr]: the module only formats floats *)
| PStr (s : string)
| PList (l : list pyval)
| PDict (d : list (string * pyval)).

Definition is_none (v : pyval) : bool :=
  match v with PNone => true | _ => false end.

(** ** Builtins on strings *)

Definition nl : string := String (ascii_of_N 10) EmptyString.
Definition tab : string := String (ascii_of_N 9) EmptyString.
Definition backslash : ascii := ascii_of_N 92.
Definition dquote : ascii := ascii_of_N 34.
Definition squote : ascii := ascii_of_N 39.

(** [sep.join(parts)] on a list of [str]. *)
Definition str_join (sep : string) (parts : list string) : string :=
  String.concat sep parts.

(** [needle in s] on two [str]: the substring test. *)
Fixpoint str_contains (needle s : string) : bool :=
  String.prefix needle s
  || match s with
     | EmptyString => false
     | String _ s' => str_contains needle s'
     end.

Definition str_of_Z (n : Z) : string :=
  NilZero.string_of_int (Z.to_int n).

Definition char_in (c : ascii) (s : string) : bool :=
  existsb (Ascii.eqb c) (list_ascii_of_string s).

Definition hex_digit (n : N) : ascii :=
  ascii_of_N (if (n <? 10)%N then 48 + n else 87 + n)%N.

(** Code points that [repr] writes as a hexadecimal escape. *)
Definition unprintable (n : N) : bool :=
  ((n <? 32) || ((127 <=? n) && (n <=? 160)) || (n =? 173))%N.

Definition repr_char (quote c : ascii) : string :=
  let n := N_of_ascii c in
  if Ascii.eqb c quote || Ascii.eqb c backslash
  then String backslash (String c EmptyString)
  else if (n =? 9)%N then String backslash "t"
  else if (n =? 10)%N then String backslash "n"
  else if (n =? 13)%N then String backslash "r"
  else if unprintable n
       then String backslash
              (String "x" (String (hex_digit (n / 16))
                             (String (hex_digit (n mod 16)) EmptyString)))
  else String c EmptyString.

(** [repr(s)] of a [str]: single quotes, unless the text holds a single
    quote and no double quote. *)
Definition str_repr (s : string) : string :=
  let quote := if char_in squote s && negb (char_in dquote s)
               then dquote else squote in
  String quote
    (String.concat EmptyString (map (repr_char quote) (list_ascii_of_string s))
     ++ String quote EmptyString).

(** [repr(v)], and with it [str] of the containers. *)
Fixpoint py_repr (v : pyval) : string :=
  match v with
  | PNone => "None"
  | PBool true => "True"
  | PBool false => "False"
  | PInt n => str_of_Z n
  | PFloat r => r
  | PStr s => str_repr s
  | PList l => "[" ++ str_join ", " (map py_repr l) ++ "]"
  | PDict d =>
      "{" ++ str_join ", "
               (map (fun kv => str_repr (fst kv) ++ ": " ++ py_repr (snd kv)) d)
          ++ "}"
  end.

(** [str(v)], which is also ["{0}".format(v)]. *)
Definition py_str (v : pyval) : string :=
  match v with
  | PStr s => s
  | _ => py_repr v
  end.

(** [s.lower()]. *)
Definition lower_char (c : ascii) : ascii :=
  let n := N_of_ascii c in
  if (((65 <=? n) && (n <=? 90))
      || ((192 <=? n) && (n <=? 222) && negb (n =? 215)))%N
  then ascii_of_N (n + 32)
  else c.

Fixpoint str_lower (s : string) : string :=
  match s with
  | EmptyString => EmptyString
  | String c s' => String (lower_char c) (str_lower s')
  end.

(** The white space that [int] skips around the digits: the ASCII white
    space (tab to carriage return, and the space) and, above the ASCII
    range, the next-line and no-break-space characters.  The separators 28
    to 31, which [str.strip] removes, are not skipped: [int] refuses them. *)
Definition is_space (c : ascii) : bool :=
  let n := N_of_ascii c in
  (((9 <=? n) && (n <=? 13)) || (n =? 32) || (n =? 133) || (n =? 160))%N.

Fixpoint lstrip (s : string) : string :=
  match s with
  | EmptyString => EmptyString
  | String c s' => if is_space c then lstrip s' else s
  end.

Definition str_rev (s : string) : string :=
  string_of_list_ascii (rev (list_ascii_of_string s)).

Definition strip (s : string) : string :=
  str_rev (lstrip (str_rev (lstrip s))).

Definition digit_of (c : ascii) : option Z :=
  let n := N_of_ascii c in
  if ((48 <=? n) && (n <=? 57))%N then Some (Z.of_N n - 48) else None.

(** Decimal digits, with single underscores allowed between two digits. *)
Fixpoint int_digits (s : string) (acc : Z) (after_digit : bool) : option Z :=
  match s with
  | EmptyString => if after_digit then Some acc else None
  | String c s' =>
      match digit_of c with
      | Some d => int_digits s' (10 * acc + d) true
      | None =>
          if Ascii.eqb c "_" && after_digit then int_digits s' acc false
          else None
      end
  end.

(** [int(s)] on a [str]: surrounding white space, an optional sign, decimal
    digits; [ValueError] otherwise.  The number of digits is not bounded, as
    in the interpreters that the module was written for. *)
Definition py_int (s : string) : result Z :=
  let t := strip s in
  let '(negative, body) :=
    match t with
    | String "-" b => (true, b)
    | String "+" b => (false, b)
    | _ => (false, t)
    end in
  match int_digits body 0 false with
  | Some n => Ok (if negative then - n else n)
  | None => Raise ValueError
  end.

(** ** Operations on Python values *)

Fixpoint dict_lookup {A : Type} (key : string) (d : list (string * A)) : option A :=
  match d with
  | [] => None
  | (k, v) :: d' => if String.eqb key k then Some v else dict_lookup key d'
  end.

(** [v.get(key, None)]: only a [dict] has the method. *)
Definition py_get (v : pyval) (key : string) : result pyval :=
  match v with
  | PDict d =>
      match dict_lookup key d with
      | Some x => Ok x
      | None => Ok PNone
      end
  | _ => Raise AttributeError
  end.

(** [v[key]] with a [str] key. *)
Definition py_getitem (v : pyval) (key : string) : result pyval :=
  match v with
  | PDict d =>
      match dict_lookup key d with
      | Some x => Ok x
      | None => Raise KeyError
      end
  | _ => Raise TypeError
  end.

Definition is_str_eq (key : string) (v : pyval) : bool :=
  match v with
  | PStr s => String.eqb key s
  | _ => false
  end.

(** [key in v] with a [str] key: a key of a dict, an element of a list, a
    substring of a string; the other values are not containers. *)
Definition py_contains (key : string) (v : pyval) : result bool :=
  match v with
  | PDict d =>
      Ok (match dict_lookup key d with Some _ => true | None => false end)
  | PList l => Ok (existsb (is_str_eq key) l)
  | PStr s => Ok (str_contains key s)
  | _ => Raise TypeError
  end.

(** [iter(v)]: the elements of a list, the keys of a dict, the characters
    of a string. *)
Definition py_iter (v : pyval) : result (list pyval) :=
  match v with
  | PList l => Ok l
  | PDict d => Ok (map (fun kv => PStr (fst kv)) d)
  | PStr s => Ok (map (fun c => PStr (String c EmptyString)) (list_ascii_of_string s))
  | _ => Raise TypeError
  end.

Definition as_str (v : pyval) : result string :=
  match v with
  | PStr s => Ok s
  | _ => Raise TypeError
  end.

(** [sep.join(items)]: every item has to be a [str]. *)
Definition py_join (sep : string) (items : list pyval) : result string :=
  (parts <- rmap as_str items ;; Ok (str_join sep parts))%result.

(** ** The response handed to the module *)

(** [response.headers]: the case-insensitive dictionary of the HTTP client
    library, which keys every entry by its lower-cased name. *)
Definition headers_t : Type := list (string * string).

Fixpoint headers_lookup (key : string) (h : headers_t) : option string :=
  match h with
  | [] => None
  | (k, v) :: h' =>
      if String.eqb (str_lower key) (str_lower k) then Some v
      else headers_lookup key h'
  end.

(** [key in headers]. *)
Definition headers_contains (key : string) (h : headers_t) : bool :=
  match headers_lookup key h with Some _ => true | None => false end.

(** [headers[key]]. *)
Definition headers_getitem (key : string) (h : headers_t) : result string :=
  match headers_lookup key h with
  | Some v => Ok v
  | None => Raise KeyError
  end.

(** The attributes of the response that the module reads; [json] is the
    outcome of [response.json()], [None] standing for a body that does not
    decode. *)
Record response_t : Type := {
  status_code : Z;
  headers : headers_t;
  text : string;
  json : option pyval
}.

Definition response_json (response : response_t) : result pyval :=
  match json response with
  | Some v => Ok v
  | None => Raise ParseError
  end.

(** Modelled from the spec: [utils.json_error_class], whose source is not
    part of the files at hand; the class it returns is the one that a failed
    JSON decoding raises (the spec's ParseError), as an [except] clause
    tests it. *)
Definition json_error_class (e : exn) : bool :=
  match e with
  | ParseError => true
  | _ => false
  end.

(** Modelled from the spec: [utils.string_class], whose source is not part
    of the files at hand; [isinstance(v, string_class())] holds when the
    value is a string. *)
Definition string_class (v : pyval) : bool :=
  match v with
  | PStr _ => true
  | _ => false
  end.

(** ** The error classes *)

Inductive error_cls : Type :=
| HTTPError
| BadRequestError
| UnauthorizedError
| AccessDeniedError
| NotFoundError
| VersionMismatchError
| UnprocessableEntityError
| RateLimitExceededError
| ServerError
| BadGatewayError
| ServiceUnavailableError.

(** An instance: its class, the two attributes that [__init__] sets and the
    message given to [Exception.__init__]. *)
Record http_error : Type := {
  class_of : error_cls;
  self_response : response_t;
  self_status_code : Z;
  message : string
}.

(** *** [_default_error_message] *)

Definition default_error_message (cls : error_cls) (response : response_t) : string :=
  match cls with
  | HTTPError => "The following error was received: " ++ text response
  | BadRequestError => "The request was malformed or missing a required parameter."
  | UnauthorizedError => "The authorization token was invalid."
  | AccessDeniedError =>
      "The specified token does not have access to the requested resource."
  | NotFoundError => "The requested resource or endpoint could not be found."
  | VersionMismatchError =>
      "Version mismatch error. The version you specified was incorrect. This may be due to someone else editing the content."
  | UnprocessableEntityError => "The resource you sent in the body is invalid."
  | RateLimitExceededError => "Rate limit exceeded. Too many requests."
  | ServerError => "Internal server error."
  | BadGatewayError => "The requested space is hibernated."
  | ServiceUnavailableError =>
      "The request was malformed or missing a required parameter."
  end.

(** *** [_handle_details] *)

Local Open Scope result_scope.

Definition HTTPError_handle_details (details : pyval) : result string :=
  Ok (py_str details).

(** The inner function of [BadRequestError._handle_details]. *)
Definition handle_detail (detail : pyval) : result pyval :=
  if string_class detail then Ok detail
  else py_get detail "details".

Definition BadRequestError_handle_details (details : pyval) : result string :=
  if string_class details then Ok (py_str details)
  else
    has_errors <- py_contains "errors" details ;;
    if has_errors : bool then
      errors <- py_getitem details "errors" ;;
      items <- py_iter errors ;;
      inner_details <- rmap handle_detail items ;;
      let inner_details := filter (fun detail => negb (is_none detail)) inner_details in
      py_join (nl ++ tab) inner_details
    else Ok (py_str details).

Definition AccessDeniedError_handle_details (details : pyval) : result string :=
  reasons <- py_getitem details "reasons" ;;
  items <- py_iter reasons ;;
  joined <- py_join (nl ++ tab ++ tab) items ;;
  Ok (nl ++ tab ++ "Reasons:" ++ nl ++ tab ++ tab ++ joined).

Definition NotFoundError_handle_details (details : pyval) : result string :=
  if string_class details then Ok (py_str details)
  else
    type <- py_getitem details "type" ;;
    let message := "The requested " ++ py_str type ++ " could not be found." in
    resource_id <- py_get details "id" ;;
    Ok (if negb (is_none resource_id)
        then message ++ " ID: " ++ py_str resource_id ++ "."
        else message).

(** [UnprocessableEntityError._handle_error]. *)
Definition handle_error (response : response_t) (error : pyval) : result string :=
  has_name <- py_contains "name" error ;;
  has_path <- (if has_name : bool then py_contains "path" error else Ok false) ;;
  message <-
    (if has_name && has_path then
       name <- py_getitem error "name" ;;
       path <- py_getitem error "path" ;;
       Ok (tab ++ "* Name: " ++ py_str name ++ " - Path: '" ++ py_str path ++ "'")
     else Ok (default_error_message UnprocessableEntityError response)) ;;
  has_value <- py_contains "value" error ;;
  if has_value : bool then
    value <- py_getitem error "value" ;;
    Ok (message ++ " - Value: '" ++ py_str value ++ "'")
  else Ok message.

Definition UnprocessableEntityError_handle_details
    (response : response_t) (details : pyval) : result string :=
  errors <- py_getitem details "errors" ;;
  items <- py_iter errors ;;
  errors <- rmap (handle_error response) items ;;
  Ok (nl ++ str_join nl errors).

Definition handle_details (cls : error_cls) (response : response_t)
    (details : pyval) : result string :=
  match cls with
  | BadRequestError => BadRequestError_handle_details details
  | AccessDeniedError => AccessDeniedError_handle_details details
  | NotFoundError => NotFoundError_handle_details details
  | UnprocessableEntityError => UnprocessableEntityError_handle_details response details
  | _ => HTTPError_handle_details details
  end.

(** *** The rate-limit header *)

Definition RATE_LIMIT_RESET_HEADER_KEY : string := "x-contentful-ratelimit-reset".

Definition has_reset_time (response : response_t) : bool :=
  headers_contains RATE_LIMIT_RESET_HEADER_KEY (headers response).

(** [RateLimitExceededError.reset_time], on the response of the instance. *)
Definition response_reset_time (response : response_t) : result Z :=
  value <- headers_getitem RATE_LIMIT_RESET_HEADER_KEY (headers response) ;;
  py_int value.

Definition has_additional_error_info (cls : error_cls) (response : response_t) : bool :=
  match cls with
  | RateLimitExceededError => has_reset_time response
  | _ => false
  end.

Definition additional_error_info (cls : error_cls) (response : response_t)
  : result (list string) :=
  match cls with
  | RateLimitExceededError =>
      seconds <- response_reset_time response ;;
      Ok ["Time until reset (seconds): " ++ py_str (PInt seconds)]
  | _ => Ok []
  end.

(** ** [_best_available_message]

    The method grows the list [error_message] in place, inside and after a
    [try] block: a computation is a function of the list built so far, and
    an exception leaves the list as it was when raised. *)

Definition composer (A : Type) : Type := list string -> result A * list string.

Definition cret {A : Type} (a : A) : composer A := fun lines => (Ok a, lines).

Definition cbind {A B : Type} (c : composer A) (f : A -> composer B) : composer B :=
  fun lines =>
    match c lines with
    | (Ok a, lines') => f a lines'
    | (Raise e, lines') => (Raise e, lines')
    end.

Definition lift {A : Type} (c : result A) : composer A := fun lines => (c, lines).

(** [error_message.append(line)] *)
Definition append_line (line : string) : composer unit :=
  fun lines => (Ok tt, (lines ++ [line])%list).

(** [error_message += more] *)
Definition extend_lines (more : list string) : composer unit :=
  fun lines => (Ok tt, (lines ++ more)%list).

(** [try: body except cls: handler] *)
Definition try_except (body : composer unit) (cls : exn -> bool)
    (handler : composer unit) : composer unit :=
  fun lines =>
    match body lines with
    | (Raise e, lines') =>
        if cls e then handler lines' else (Raise e, lines')
    | done => done
    end.

Declare Scope composer_scope.
Delimit Scope composer_scope with composer.
Notation "x <- c ;; k" := (cbind c (fun x => k))
  (at level 61, c at next level, right associativity) : composer_scope.
Notation "c ;; k" := (cbind c (fun _ => k))
  (at level 61, right associativity) : composer_scope.

Definition try_body (cls : error_cls) (response : response_t) : composer unit :=
  (response_json <- lift (response_json response) ;;
   message <- lift (py_get response_json "message") ;;
   details <- lift (py_get response_json "details") ;;
   request_id <- lift (py_get response_json "requestId") ;;
   (if negb (is_none message)
    then append_line ("Message: " ++ py_str message)
    else append_line ("Message: " ++ default_error_message cls response)) ;;
   (if negb (is_none details)
    then (formatted <- lift (handle_details cls response details) ;;
          append_line ("Details: " ++ formatted))
    else cret tt) ;;
   (if negb (is_none request_id)
    then append_line ("Request ID: " ++ py_str request_id)
    else cret tt))%composer.

Definition compose_lines (cls : error_cls) (response : response_t) : composer unit :=
  (try_except (try_body cls response) json_error_class
     (append_line ("Message: " ++ default_error_message cls response)) ;;
   (if has_additional_error_info cls response
    then (info <- lift (additional_error_info cls response) ;;
          extend_lines info)
    else cret tt))%composer.

Definition best_available_message (cls : error_cls) (response : response_t)
  : result string :=
  let error_message := ["HTTP status code: " ++ py_str (PInt (status_code response))] in
  match compose_lines cls response error_message with
  | (Ok _, error_message) => Ok (str_join nl error_message)
  | (Raise e, _) => Raise e
  end.

(** [HTTPError.__init__], run by the constructor of every class. *)
Definition new_error (cls : error_cls) (response : response_t) : result http_error :=
  (message <- best_available_message cls response ;;
   Ok {| class_of := cls;
         self_response := response;
         self_status_code := status_code response;
         message := message |})%result.

(** [e.reset_time()]: a method of [RateLimitExceededError] only. *)
Definition reset_time (e : http_error) : result Z :=
  match class_of e with
  | RateLimitExceededError => response_reset_time (self_response e)
  | _ => Raise AttributeError
  end.

(** ** [get_error] *)

Definition errors : list (Z * error_cls) :=
  [ (400, BadRequestError);
    (401, UnauthorizedError);
    (403, AccessDeniedError);
    (404, NotFoundError);
    (409, VersionMismatchError);
    (422, UnprocessableEntityError);
    (429, RateLimitExceededError);
    (500, ServerError);
    (502, BadGatewayError);
    (503, ServiceUnavailableError) ].

Fixpoint errors_lookup (code : Z) (d : list (Z * error_cls)) : option error_cls :=
  match d with
  | [] => None
  | (k, c) :: d' => if Z.eqb code k then Some c else errors_lookup code d'
  end.

Definition select_class (code : Z) : error_cls :=
  match errors_lookup code errors with
  | Some cls => cls
  | None => HTTPError
  end.

Definition get_error (response : response_t) : result http_error :=
  let error_class := select_class (status_code response) in
  new_error error_class response.

(** ** The same code over a store of objects

    A call of [get_error] takes a reference to the response and builds new
    objects: the dictionary [errors], the error, whose attribute [response]
    refers to the response handed in, and the list [error_message], which is
    grown in place.  Here the objects live in a store, a reference is an
    index of the store, and a call turns a store into a result and the store
    that the next call starts from.  The formatters only read the decoded
    body and build strings: they are the functions above. *)

Definition addr : Type := nat.

Inductive obj : Type :=
| ResponseObj (r : response_t)
| DictObj (d : list (Z * error_cls))
| ListObj (items : list string)
| ErrorObj (cls : error_cls) (response : option addr) (status : option Z)
    (args : option string).   (* [None]: the attribute is not set yet *)

Definition heap : Type := list obj.

Definition stateful (A : Type) : Type := heap -> result A * heap.

Definition sret {A : Type} (a : A) : stateful A := fun h => (Ok a, h).

Definition sraise {A : Type} (x : exn) : stateful A := fun h => (Raise x, h).

Definition sbind {A B : Type} (c : stateful A) (f : A -> stateful B) : stateful B :=
  fun h =>
    match c h with
    | (Ok a, h') => f a h'
    | (Raise x, h') => (Raise x, h')
    end.

Definition slift {A : Type} (c : result A) : stateful A := fun h => (c, h).

Declare Scope stateful_scope.
Delimit Scope stateful_scope with stateful.
Notation "x <- c ;; k" := (sbind c (fun x => k))
  (at level 61, c at next level, right associativity) : stateful_scope.
Notation "c ;; k" := (sbind c (fun _ => k))
  (at level 61, right associativity) : stateful_scope.

(** A new object gets the next free reference. *)
Definition alloc (o : obj) : stateful addr :=
  fun h => (Ok (List.length h), (h ++ [o])%list).

Fixpoint update (h : heap) (a : addr) (f : obj -> obj) : heap :=
  match h, a with
  | [], _ => []
  | o :: h', O => f o :: h'
  | o :: h', S a' => o :: update h' a' f
  end.

Definition modify (a : addr) (f : obj -> obj) : stateful unit :=
  fun h => (Ok tt, update h a f).

(** Reading an attribute that the object does not have raises
    [AttributeError]. *)
Definition load (a : addr) : stateful obj :=
  fun h =>
    match nth_error h a with
    | Some o => (Ok o, h)
    | None => (Raise AttributeError, h)
    end.

Local Open Scope stateful_scope.

(** The attributes of a response: [status_code], [headers], [text] and the
    outcome of [json()]. *)
Definition load_response (response : addr) : stateful response_t :=
  o <- load response ;;
  match o with
  | ResponseObj r => sret r
  | _ => sraise AttributeError
  end.

Definition load_dict (d : addr) : stateful (list (Z * error_cls)) :=
  o <- load d ;;
  match o with
  | DictObj table => sret table
  | _ => sraise AttributeError
  end.

Definition load_items (l : addr) : stateful (list string) :=
  o <- load l ;;
  match o with
  | ListObj items => sret items
  | _ => sraise AttributeError
  end.

(** [type(self)] *)
Definition load_class (self : addr) : stateful error_cls :=
  o <- load self ;;
  match o with
  | ErrorObj cls _ _ _ => sret cls
  | _ => sraise AttributeError
  end.

(** [self.response] *)
Definition load_self_response (self : addr) : stateful addr :=
  o <- load self ;;
  match o with
  | ErrorObj _ (Some response) _ _ => sret response
  | _ => sraise AttributeError
  end.

(** [self.status_code] *)
Definition load_self_status_code (self : addr) : stateful Z :=
  o <- load self ;;
  match o with
  | ErrorObj _ _ (Some status) _ => sret status
  | _ => sraise AttributeError
  end.

(** [self.response = response] *)
Definition set_self_response (self response : addr) : stateful unit :=
  modify self (fun o =>
                 match o with
                 | ErrorObj cls _ status args => ErrorObj cls (Some response) status args
                 | _ => o
                 end).

(** [self.status_code = status] *)
Definition set_self_status_code (self : addr) (status : Z) : stateful unit :=
  modify self (fun o =>
                 match o with
                 | ErrorObj cls response _ args => ErrorObj cls response (Some status) args
                 | _ => o
                 end).

(** [super(HTTPError, self).__init__(message)] *)
Definition set_self_args (self : addr) (message : string) : stateful unit :=
  modify self (fun o =>
                 match o with
                 | ErrorObj cls response status _ => ErrorObj cls response status (Some message)
                 | _ => o
                 end).

(** The statements that grow the list [l] in place: the list object holds
    the lines built so far, also when the statements raise. *)
Definition on_list {A : Type} (l : addr) (c : composer A) : stateful A :=
  fun h =>
    match nth_error h l with
    | Some (ListObj items) =>
        let '(out, items') := c items in
        (out, update h l (fun _ => ListObj items'))
    | _ => (Raise AttributeError, h)
    end.

(** [_best_available_message(self, response)] *)
Definition best_available_message_st (self response : addr) : stateful string :=
  cls <- load_class self ;;
  status <- load_self_status_code self ;;
  error_message <- alloc (ListObj ["HTTP status code: " ++ py_str (PInt status)]) ;;
  r <- load_response response ;;
  on_list error_message
    (try_except (try_body cls r) json_error_class
       (append_line ("Message: " ++ default_error_message cls r))) ;;
  own <- load_self_response self ;;
  r' <- load_response own ;;
  (if has_additional_error_info cls r'
   then (info <- slift (additional_error_info cls r') ;;
         on_list error_message (extend_lines info))
   else sret tt) ;;
  items <- load_items error_message ;;
  sret (str_join nl items).

(** [error_class(response)]: the new object, then [HTTPError.__init__]. *)
Definition new_error_st (cls : error_cls) (response : addr) : stateful addr :=
  self <- alloc (ErrorObj cls None None None) ;;
  set_self_response self response ;;
  r <- load_response response ;;
  set_self_status_code self (status_code r) ;;
  message <- best_available_message_st self response ;;
  set_self_args self message ;;
  sret self.

(** [get_error(response)] *)
Definition get_error_st (response : addr) : stateful addr :=
  errors_dict <- alloc (DictObj errors) ;;
  r <- load_response response ;;
  table <- load_dict errors_dict ;;
  let error_class :=
    match errors_lookup (status_code r) table with
    | Some cls => cls
    | None => HTTPError
    end in
  new_error_st error_class response.

(** [e.reset_time()] on a reference to an error. *)
Definition reset_time_st (self : addr) : stateful Z :=
  cls <- load_class self ;;
  match cls with
  | RateLimitExceededError =>
      own <- load_self_response self ;;
      r <- load_response own ;;
      slift (response_reset_time r)
  | _ => sraise AttributeError
  end.

Local Close Scope stateful_scope.

(** The response that a reference holds in a store. *)
Definition response_at (h : heap) (a : addr) : option response_t :=
  match nth_error h a with
  | Some (ResponseObj r) => Some r
  | _ => None
  end.

(** What an observer reads in the store [h] off the outcome of a call: the
    class, the status code, the message and the reset time of the error
    referred to, or the exception that escaped. *)
Definition observe_st (h : heap) (out : result addr)
  : result (error_cls * Z * string * result Z) :=
  match out with
  | Ok self =>
      match nth_error h self with
      | Some (ErrorObj cls (Some _) (Some status) (Some msg)) =>
          Ok (cls, status, msg, fst (reset_time_st self h))
      | _ => Raise AttributeError
      end
  | Raise x => Raise x
  end.

(** ** Vocabulary of the statements *)

(** The first line of every message. *)
Definition status_line (response : response_t) : string :=
  "HTTP status code: " ++ str_of_Z (status_code response).

(** The second line when the body gives no message of its own. *)
Definition default_line (cls : error_cls) (response : response_t) : string :=
  "Message: " ++ default_error_message cls response.

(** What [d.get(key, None)] returns on a dictionary. *)
Definition dict_get (key : string) (d : list (string * pyval)) : pyval :=
  match dict_lookup key d with
  | Some x => x
  | None => PNone
  end.

(** The lines gathered by the [try] statement of [_best_available_message],
    before the additional information of the class. *)
Definition body_lines (cls : error_cls) (response : response_t) : result (list string) :=
  match try_except (try_body cls response) json_error_class
          (append_line (default_line cls response)) [status_line response] with
  | (Ok _, lines) => Ok lines
  | (Raise e, _) => Raise e
  end.

(** The second line when the body is the mapping [d]. *)
Definition message_line (cls : error_cls) (response : response_t)
    (d : list (string * pyval)) : string :=
  if is_none (dict_get "message" d) then default_line cls response
  else "Message: " ++ py_str (dict_get "message" d).

(** The request-id line of the mapping [d], if it has one. *)
Definition request_id_lines (d : list (string * pyval)) : list string :=
  if is_none (dict_get "requestId" d) then []
  else ["Request ID: " ++ py_str (dict_get "requestId" d)].

(** The second line of the message: the body's own message, or the default
    of the class. *)
Definition second_line (cls : error_cls) (r : response_t) : string :=
  match json r with
  | Some (PDict d) => message_line cls r d
  | _ => default_line cls r
  end.

(** A computation that does not raise the class that the [except] clause of
    [_best_available_message] catches. *)
Definition quiet {A : Type} (c : result A) : Prop := c <> Raise ParseError.

(** The table of variants by status code, as the specification gives it. *)
Definition spec_variant (code : Z) : error_cls :=
  if code =? 400 then BadRequestError
  else if code =? 401 then UnauthorizedError
  else if code =? 403 then AccessDeniedError
  else if code =? 404 then NotFoundError
  else if code =? 409 then VersionMismatchError
  else if code =? 422 then UnprocessableEntityError
  else if code =? 429 then RateLimitExceededError
  else if code =? 500 then ServerError
  else if code =? 502 then BadGatewayError
  else if code =? 503 then ServiceUnavailableError
  else HTTPError.

Definition bespoke_codes : list Z :=
  [400; 401; 403; 404; 409; 422; 429; 500; 502; 503].

(** The default message of the table, by status code. *)
Definition spec_default_message (code : Z) (body_text : string) : string :=
  if code =? 400 then "The request was malformed or missing a required parameter."
  else if code =? 401 then "The authorization token was invalid."
  else if code =? 403
    then "The specified token does not have access to the requested resource."
  else if code =? 404 then "The requested resource or endpoint could not be found."
  else if code =? 409
    then "Version mismatch error. The version you specified was incorrect. This may be due to someone else editing the content."
  else if code =? 422 then "The resource you sent in the body is invalid."
  else if code =? 429 then "Rate limit exceeded. Too many requests."
  else if code =? 500 then "Internal server error."
  else if code =? 502 then "The requested space is hibernated."
  else if code =? 503
    then "The request was malformed or missing a required parameter."
  else "The following error was received: " ++ body_text.

(** What an observer reads off the outcome of [get_error]: the class, the
    status code, the message and the reset time of the error, or the
    exception that escaped. *)
Definition observe (r : result http_error)
  : result (error_cls * Z * string * result Z) :=
  match r with
  | Ok e => Ok (class_of e, self_status_code e, message e, reset_time e)
  | Raise x => Raise x
  end.

(** *** Shapes of [details] *)

Definition is_dict (v : pyval) : bool :=
  match v with
  | PDict _ => true
  | _ => false
  end.

(** An entry of [details.errors] that the 400 formatter accepts: a string,
    or a mapping whose [details] is absent, null or a string. *)
Definition detail_entry_ok (entry : pyval) : bool :=
  match entry with
  | PStr _ => true
  | PDict d =>
      match dict_get "details" d with
      | PNone | PStr _ => true
      | _ => false
      end
  | _ => false
  end.

(** The text such an entry contributes, if any. *)
Definition detail_entry_text (entry : pyval) : option string :=
  match entry with
  | PStr s => Some s
  | PDict d =>
      match dict_get "details" d with
      | PStr s => Some s
      | _ => None
      end
  | _ => None
  end.

Fixpoint detail_texts (entries : list pyval) : list string :=
  match entries with
  | [] => []
  | entry :: rest =>
      match detail_entry_text entry with
      | Some s => s :: detail_texts rest
      | None => detail_texts rest
      end
  end.

(** The 400 formatter as the specification words it: only the [details]
    sub-field of an entry counts. *)
Definition spec_detail_subfields (entries : list pyval) : list string :=
  flat_map (fun entry =>
              match entry with
              | PDict d =>
                  match dict_get "details" d with
                  | PStr s => [s]
                  | _ => []
                  end
              | _ => []
              end) entries.

Definition spec_bad_request_details (details : pyval) : string :=
  match details with
  | PStr s => s
  | PDict d =>
      match dict_lookup "errors" d with
      | Some (PList entries) => str_join (nl ++ tab) (spec_detail_subfields entries)
      | _ => py_str details
      end
  | _ => py_str details
  end.

Definition has_key (key : string) (d : list (string * pyval)) : bool :=
  match dict_lookup key d with
  | Some _ => true
  | None => false
  end.

(** The text of one entry of a 422 [details.errors] list, as the
    specification words it. *)
Definition spec_entry_text (entry : list (string * pyval)) : string :=
  (if has_key "name" entry && has_key "path" entry
   then tab ++ "* Name: " ++ py_str (dict_get "name" entry)
            ++ " - Path: '" ++ py_str (dict_get "path" entry) ++ "'"
   else "The resource you sent in the body is invalid.")
  ++ (if has_key "value" entry
      then " - Value: '" ++ py_str (dict_get "value" entry) ++ "'"
      else EmptyString).

Definition spec_entry_text_of (entry : pyval) : string :=
  match entry with
  | PDict d => spec_entry_text d
  | _ => "The resource you sent in the body is invalid."
  end.

(** The text of a 404 [details] mapping, as the specification words it. *)
Definition spec_not_found_text (d : list (string * pyval)) : string :=
  "The requested " ++ py_str (dict_get "type" d) ++ " could not be found."
  ++ (if is_none (dict_get "id" d) then EmptyString
      else " ID: " ++ py_str (dict_get "id" d) ++ ".").

(** A number or a boolean: a value that is no container. *)
Definition is_scalar (v : pyval) : bool :=
  match v with
  | PBool _ | PInt _ | PFloat _ => true
  | _ => false
  end.

(** [get_error] returns, and the third line of the message of the response
    of body [d] is the Details line of text [txt]. *)
Definition details_line_is (r : response_t) (d : list (string * pyval))
    (txt : string) : Prop :=
  exists e,
    get_error r = Ok e
    /\ message e =
         str_join nl (status_line r
                        :: message_line (class_of e) r d
                        :: ("Details: " ++ txt)
                        :: request_id_lines d).

(** ** Sample responses *)

Definition mk_response (code : Z) (hs : headers_t) (body : option pyval) : response_t :=
  {| status_code := code; headers := hs; text := "<html>"; json := body |}.

Definition body_with_details (details : pyval) : option pyval :=
  Some (PDict [("message", PStr "Oops"); ("details", details); ("requestId", PStr "r1")]).

Definition resp_403_no_reasons : response_t :=
  mk_response 403 [] (Some (PDict [("details", PDict [])])).

Definition resp_404_entry : response_t :=
  mk_response 404 []
    (body_with_details (PDict [("type", PStr "Entry"); ("id", PStr "abc")])).

Definition resp_404_no_type : response_t :=
  mk_response 404 [] (body_with_details (PDict [("id", PStr "abc")])).

Definition resp_400_string_entry : response_t :=
  mk_response 400 [] (body_with_details (PDict [("errors", PList [PStr "abc"])])).

Definition resp_400_number : response_t :=
  mk_response 400 [] (body_with_details (PInt 5)).

Definition resp_400_entries : response_t :=
  mk_response 400 []
    (body_with_details
       (PDict [("errors", PList [PStr "abc"; PDict [("details", PStr "d1")]; PDict []])])).

Definition title_entry : pyval :=
  PDict [("name", PStr "title"); ("path", PStr "fields.title"); ("value", PStr "x")].

Definition resp_422_title : response_t :=
  mk_response 422 [] (body_with_details (PDict [("errors", PList [title_entry])])).

Definition resp_422_number_entry : response_t :=
  mk_response 422 [] (body_with_details (PDict [("errors", PList [PInt 5])])).

Definition resp_429_reset : response_t :=
  mk_response 429 [("X-Contentful-RateLimit-Reset", "5")] None.

Definition resp_429_plain : response_t :=
  mk_response 429 [("Content-Type", "text/html")] None.

Definition resp_418 : response_t :=
  mk_response 418 [] None.

Definition resp_200_list : response_t :=
  mk_response 200 [] (Some (PList [PInt 1])).

(** ** Vocabulary of the further properties *)

(** A computation that does not raise the exception [x]. *)
Definition never {A : Type} (x : exn) (c : result A) : Prop := c <> Raise x.

(** The body can be read: it does not decode, or decodes to a mapping. *)
Definition body_readable (r : response_t) : Prop :=
  json r = None \/ exists d, json r = Some (PDict d).

(** The status codes whose class has a [_handle_details] or additional
    information of its own. *)
Definition special_codes : list Z := [400; 403; 404; 422; 429].

(** The key that the formatter of the status code subscripts is missing. *)
Definition missing_key (code : Z) (dd : list (string * pyval)) : Prop :=
  (code = 403 /\ dict_lookup "reasons" dd = None)
  \/ (code = 404 /\ dict_lookup "type" dd = None)
  \/ (code = 422 /\ dict_lookup "errors" dd = None).

Definition str_or_dict (v : pyval) : bool := string_class v || is_dict v.

(** The lines of the additional information of a response. *)
Definition reset_lines (r : response_t) (extra : list string) : Prop :=
  if (status_code r =? 429) && has_reset_time r
  then exists n, response_reset_time r = Ok n
                 /\ extra = ["Time until reset (seconds): " ++ str_of_Z n]
  else extra = [].

(** The Details lines of a mapping body [d] under the class [cls]. *)
Definition details_lines_of (cls : error_cls) (r : response_t)
    (d : list (string * pyval)) (lines : list string) : Prop :=
  if is_none (dict_get "details" d) then lines = []
  else exists txt,
         handle_details cls r (dict_get "details" d) = Ok txt
         /\ lines = ["Details: " ++ txt].

Definition resp_429_bad_reset : response_t :=
  mk_response 429 [("X-Contentful-RateLimit-Reset", "soon")] None.

Definition resp_429_full : response_t :=
  mk_response 429 [("x-contentful-ratelimit-reset", " 07 ")]
    (body_with_details (PList [PInt 1; PStr "a"])).

Definition resp_500_details : response_t :=
  mk_response 500 [] (body_with_details (PDict [("k", PInt 1)])).

Definition resp_401_empty_message : response_t :=
  mk_response 401 [] (Some (PDict [("message", PStr EmptyString)])).

Definition resp_409_null_message : response_t :=
  mk_response 409 [] (Some (PDict [("message", PNone); ("requestId", PInt 7)])).

Definition resp_403_reasons : response_t :=
  mk_response 403 []
    (body_with_details (PDict [("reasons", PList [PStr "a"; PStr "b"])])).

Definition resp_403_bad_reason : response_t :=
  mk_response 403 []
    (body_with_details (PDict [("reasons", PList [PStr "a"; PInt 1])])).

Definition resp_403_string : response_t :=
  mk_response 403 [] (body_with_details (PStr "forbidden")).

Definition resp_422_no_errors : response_t :=
  mk_response 422 [] (body_with_details (PDict [])).

Definition resp_400_bad_entry : response_t :=
  mk_response 400 []
    (body_with_details (PDict [("errors", PList [PStr "abc"; PInt 1])])).

Definition resp_400_bad_subfield : response_t :=
  mk_response 400 []
    (body_with_details
       (PDict [("errors", PList [PStr "abc"; PDict [("details", PInt 1)]])])).

Definition resp_400_errors_mapping : response_t :=
  mk_response 400 []
    (body_with_details
       (PDict [("errors", PDict [("title", PStr "required"); ("slug", PInt 2)])])).

Definition resp_400_errors_number : response_t :=
  mk_response 400 [] (body_with_details (PDict [("errors", PInt 3)])).

Definition resp_429_separator : response_t :=
  mk_response 429
    [("X-Contentful-RateLimit-Reset", String (ascii_of_N 28) "5")] None.

Definition sample_heap : heap :=
  [ListObj ["unrelated"]; ResponseObj resp_429_reset; ResponseObj resp_404_entry].

(** * Properties *)

(** ** The model at work *)

Example py_str_of_dict :
  py_str (PDict [("type", PStr "Entry"); ("n", PList [PInt 1; PNone; PBool true])])
  = "{'type': 'Entry', 'n': [1, None, True]}".
Proof. reflexivity. Qed.

Example py_int_samples :
  py_int "5" = Ok 5 /\ py_int " +1_000 " = Ok 1000 /\ py_int "-0" = Ok 0
  /\ py_int "abc" = Raise ValueError /\ py_int "1__0" = Raise ValueError
  /\ py_int EmptyString = Raise ValueError.
Proof. repeat split. Qed.

Example py_int_separators :
  py_int (String (ascii_of_N 28) "5") = Raise ValueError
  /\ py_int ("5" ++ String (ascii_of_N 31) EmptyString) = Raise ValueError
  /\ py_int (String (ascii_of_N 160) "5" ++ String (ascii_of_N 133) EmptyString) = Ok 5
  /\ py_int (tab ++ "5" ++ nl) = Ok 5.
Proof. repeat split. Qed.

Example reset_header_with_separator :
  get_error resp_429_separator = Raise ValueError.
Proof. reflexivity. Qed.

Example message_of_404 :
  observe (get_error resp_404_entry)
  = Ok (NotFoundError, 404,
        "HTTP status code: 404" ++ nl
        ++ "Message: Oops" ++ nl
        ++ "Details: The requested Entry could not be found. ID: abc." ++ nl
        ++ "Request ID: r1",
        Raise AttributeError).
Proof. reflexivity. Qed.

Example message_of_403 :
  observe (get_error
             (mk_response 403 []
                (body_with_details (PDict [("reasons", PList [PStr "a"; PStr "b"])]))))
  = Ok (AccessDeniedError, 403,
        "HTTP status code: 403" ++ nl
        ++ "Message: Oops" ++ nl
        ++ "Details: " ++ nl ++ tab ++ "Reasons:" ++ nl ++ tab ++ tab ++ "a"
        ++ nl ++ tab ++ tab ++ "b" ++ nl
        ++ "Request ID: r1",
        Raise AttributeError).
Proof. reflexivity. Qed.

Example message_of_418 :
  observe (get_error resp_418)
  = Ok (HTTPError, 418,
        "HTTP status code: 418" ++ nl
        ++ "Message: The following error was received: <html>",
        Raise AttributeError).
Proof. reflexivity. Qed.

(** ** Strings and joins *)

Lemma str_app_assoc (a b c : string) : (a ++ b) ++ c = a ++ b ++ c.
Proof.
  induction a as [|ch a IH]; simpl; [reflexivity | now rewrite IH].
Qed.

Lemma str_join_cons (sep a b : string) (rest : list string) :
  str_join sep (a :: b :: rest) = a ++ sep ++ str_join sep (b :: rest).
Proof. reflexivity. Qed.

Lemma str_join_snoc (sep x : string) (parts : list string) :
  parts <> [] ->
  str_join sep (parts ++ [x]) = str_join sep parts ++ sep ++ x.
Proof.
  induction parts as [|a parts IH]; intros Hne; [congruence|].
  destruct parts as [|b parts].
  - reflexivity.
  - specialize (IH ltac:(discriminate)).
    unfold str_join in *. cbn [app] in *.
    change (String.concat sep (a :: b :: (parts ++ [x])%list))
      with (a ++ sep ++ String.concat sep (b :: (parts ++ [x])%list)).
    change (String.concat sep (a :: b :: parts))
      with (a ++ sep ++ String.concat sep (b :: parts)).
    rewrite IH. now rewrite !str_app_assoc.
Qed.

Lemma py_str_int (n : Z) : py_str (PInt n) = str_of_Z n.
Proof. reflexivity. Qed.

(** ** The composition of the message *)

Lemma py_get_dict (d : list (string * pyval)) (key : string) :
  py_get (PDict d) key = Ok (dict_get key d).
Proof.
  unfold py_get, dict_get. now destruct (dict_lookup key d).
Qed.

Lemma py_get_not_dict (v : pyval) (key : string) :
  is_dict v = false -> py_get v key = Raise AttributeError.
Proof. destruct v; simpl; intros H; congruence. Qed.

(** *** No formatter raises the JSON error class

    The [except] clause of [_best_available_message] can only be entered
    from [response.json()]: nothing else in the [try] block raises the class
    that it catches. *)

Create HintDb quiet.

Lemma quiet_ok {A : Type} (a : A) : quiet (Ok a).
Proof. unfold quiet; discriminate. Qed.

Lemma quiet_rbind {A B : Type} (c : result A) (f : A -> result B) :
  quiet c -> (forall a, quiet (f a)) -> quiet (rbind c f).
Proof.
  unfold quiet. destruct c as [a|e]; simpl; intros Hc Hf; [apply Hf|].
  intros Heq. apply Hc. congruence.
Qed.

Lemma quiet_rmap {A B : Type} (f : A -> result B) (xs : list A) :
  (forall x, quiet (f x)) -> quiet (rmap f xs).
Proof.
  intros Hf. induction xs as [|x xs IH]; simpl.
  - apply quiet_ok.
  - apply quiet_rbind; [apply Hf|]. intros y.
    apply quiet_rbind; [exact IH|]. intros ys. apply quiet_ok.
Qed.

Lemma quiet_if {A : Type} (b : bool) (c1 c2 : result A) :
  quiet c1 -> quiet c2 -> quiet (if b then c1 else c2).
Proof. now destruct b. Qed.

Lemma quiet_py_get (v : pyval) (key : string) : quiet (py_get v key).
Proof.
  unfold quiet, py_get. destruct v; try discriminate.
  destruct (dict_lookup key d); discriminate.
Qed.

Lemma quiet_py_getitem (v : pyval) (key : string) : quiet (py_getitem v key).
Proof.
  unfold quiet, py_getitem. destruct v; try discriminate.
  destruct (dict_lookup key d); discriminate.
Qed.

Lemma quiet_py_contains (key : string) (v : pyval) : quiet (py_contains key v).
Proof. unfold quiet, py_contains. destruct v; discriminate. Qed.

Lemma quiet_py_iter (v : pyval) : quiet (py_iter v).
Proof. unfold quiet, py_iter. destruct v; discriminate. Qed.

Lemma quiet_as_str (v : pyval) : quiet (as_str v).
Proof. unfold quiet, as_str. destruct v; discriminate. Qed.

Lemma quiet_py_join (sep : string) (items : list pyval) : quiet (py_join sep items).
Proof.
  unfold py_join. apply quiet_rbind.
  - apply quiet_rmap, quiet_as_str.
  - intros parts. apply quiet_ok.
Qed.

#[local] Hint Resolve quiet_ok quiet_py_get quiet_py_getitem quiet_py_contains
  quiet_py_iter quiet_as_str quiet_py_join quiet_rmap : quiet.

Ltac quiet_tac :=
  repeat first
    [ apply quiet_rbind; [|intro]
    | apply quiet_if
    | solve [auto with quiet] ].

Lemma quiet_handle_detail (detail : pyval) : quiet (handle_detail detail).
Proof. unfold handle_detail. quiet_tac. Qed.

Lemma quiet_handle_error (r : response_t) (error : pyval) : quiet (handle_error r error).
Proof. unfold handle_error. quiet_tac. Qed.

Lemma quiet_handle_details (cls : error_cls) (r : response_t) (details : pyval) :
  quiet (handle_details cls r details).
Proof.
  pose proof quiet_handle_detail. pose proof (quiet_handle_error r).
  destruct cls; simpl;
    unfold HTTPError_handle_details, BadRequestError_handle_details,
      AccessDeniedError_handle_details, NotFoundError_handle_details,
      UnprocessableEntityError_handle_details;
    quiet_tac.
Qed.

(** The message is the lines of the [try] statement followed by the
    additional information of the class, joined by newlines. *)
Lemma best_available_message_eq (cls : error_cls) (r : response_t) :
  best_available_message cls r =
    (lines <- body_lines cls r ;;
     extra <- (if has_additional_error_info cls r
               then additional_error_info cls r else Ok []) ;;
     Ok (str_join nl (lines ++ extra)%list)).
Proof.
  unfold best_available_message, body_lines, compose_lines, cbind.
  rewrite py_str_int. fold (status_line r). fold (default_line cls r).
  destruct (try_except (try_body cls r) json_error_class
              (append_line (default_line cls r)) [status_line r])
    as [[u|e] lines]; simpl; [|reflexivity].
  destruct (has_additional_error_info cls r).
  - unfold lift, extend_lines.
    destruct (additional_error_info cls r) as [info|e]; reflexivity.
  - unfold cret. simpl. now rewrite app_nil_r.
Qed.

Lemma body_lines_unparsed (cls : error_cls) (r : response_t) :
  json r = None ->
  body_lines cls r = Ok [status_line r; default_line cls r].
Proof.
  intros Hj.
  unfold body_lines, try_except, try_body, cbind, lift, response_json.
  rewrite Hj. reflexivity.
Qed.

Lemma body_lines_not_dict (cls : error_cls) (r : response_t) (v : pyval) :
  json r = Some v -> is_dict v = false ->
  body_lines cls r = Raise AttributeError.
Proof.
  intros Hj Hv.
  unfold body_lines, try_except, try_body, cbind, lift, response_json.
  rewrite Hj, (py_get_not_dict v "message" Hv). reflexivity.
Qed.

Lemma body_lines_dict (cls : error_cls) (r : response_t) (d : list (string * pyval)) :
  json r = Some (PDict d) ->
  body_lines cls r =
    (details_lines <-
       (if is_none (dict_get "details" d) then Ok []
        else (formatted <- handle_details cls r (dict_get "details" d) ;;
              Ok ["Details: " ++ formatted])) ;;
     Ok ([status_line r; message_line cls r d]
           ++ details_lines ++ request_id_lines d)%list).
Proof.
  intros Hj.
  unfold body_lines, try_except, try_body, cbind, lift, response_json.
  rewrite Hj, !py_get_dict.
  unfold message_line, request_id_lines, default_line.
  destruct (is_none (dict_get "message" d)); simpl;
    (destruct (is_none (dict_get "details" d)); simpl;
     [ destruct (is_none (dict_get "requestId" d)); reflexivity
     | pose proof (quiet_handle_details cls r (dict_get "details" d)) as Hq;
       unfold quiet in Hq;
       destruct (handle_details cls r (dict_get "details" d)) as [txt|[]];
       simpl; try reflexivity; try congruence;
       destruct (is_none (dict_get "requestId" d)); reflexivity ]).
Qed.

Lemma str_app_nil_r (a : string) : a ++ EmptyString = a.
Proof. induction a as [|ch a IH]; simpl; [reflexivity | now rewrite IH]. Qed.

Lemma str_join_head (sep a : string) (rest : list string) :
  exists tail, str_join sep (a :: rest) = a ++ tail.
Proof.
  destruct rest as [|b rest].
  - exists EmptyString. simpl. now rewrite str_app_nil_r.
  - exists (sep ++ str_join sep (b :: rest)). apply str_join_cons.
Qed.

(** What a successful construction tells about its parts. *)
Lemma new_error_inv (cls : error_cls) (r : response_t) (e : http_error) :
  new_error cls r = Ok e ->
  exists lines extra,
    body_lines cls r = Ok lines
    /\ (if has_additional_error_info cls r
        then additional_error_info cls r else Ok []) = Ok extra
    /\ message e = str_join nl (lines ++ extra)%list
    /\ class_of e = cls /\ self_response e = r
    /\ self_status_code e = status_code r.
Proof.
  unfold new_error. rewrite best_available_message_eq.
  destruct (body_lines cls r) as [lines|x]; simpl; [|discriminate].
  destruct (if has_additional_error_info cls r
            then additional_error_info cls r else Ok []) as [extra|x];
    simpl; [|discriminate].
  intros H. injection H as <-. exists lines, extra. simpl. auto 6.
Qed.

Lemma new_error_intro (cls : error_cls) (r : response_t) (lines extra : list string) :
  body_lines cls r = Ok lines ->
  (if has_additional_error_info cls r
   then additional_error_info cls r else Ok []) = Ok extra ->
  new_error cls r =
    Ok {| class_of := cls; self_response := r;
          self_status_code := status_code r;
          message := str_join nl (lines ++ extra)%list |}.
Proof.
  intros Hb Hx. unfold new_error.
  rewrite best_available_message_eq, Hb. simpl. rewrite Hx. reflexivity.
Qed.

Lemma body_lines_shape (cls : error_cls) (r : response_t) (lines : list string) :
  body_lines cls r = Ok lines ->
  exists tail, lines = status_line r :: second_line cls r :: tail.
Proof.
  unfold second_line. destruct (json r) as [v|] eqn:Hj.
  - destruct (is_dict v) eqn:Hd.
    + destruct v; try discriminate Hd.
      rewrite (body_lines_dict cls r d Hj).
      destruct (if is_none (dict_get "details" d) then Ok []
                else (formatted <- handle_details cls r (dict_get "details" d) ;;
                      Ok ["Details: " ++ formatted])) as [dl|x];
        simpl; [|discriminate].
      intros H. injection H as <-. eauto.
    + rewrite (body_lines_not_dict cls r v Hj Hd). discriminate.
  - rewrite (body_lines_unparsed cls r Hj).
    intros H. injection H as <-. eauto.
Qed.

(** ** The dispatch on the status code *)

Lemma select_class_spec (code : Z) : select_class code = spec_variant code.
Proof.
  unfold select_class, spec_variant, errors, errors_lookup.
  repeat match goal with
         | |- context [?a =? ?b] => destruct (a =? b); [reflexivity|]
         end.
  reflexivity.
Qed.

Lemma select_class_bespoke (code : Z) :
  select_class code <> HTTPError <-> In code bespoke_codes.
Proof.
  unfold select_class, errors, errors_lookup, bespoke_codes.
  repeat match goal with
         | |- context [code =? ?b] =>
             destruct (Z.eqb_spec code b);
             [subst code; split; [intros _; simpl; tauto | discriminate]|]
         end.
  split; [congruence|]. simpl. intros H. exfalso.
  repeat match type of H with
         | _ \/ _ => destruct H as [H|H]; [symmetry in H; contradiction|]
         end.
  exact H.
Qed.

Lemma default_message_spec (code : Z) (r : response_t) :
  default_error_message (select_class code) r = spec_default_message code (text r).
Proof.
  rewrite select_class_spec. unfold spec_variant, spec_default_message.
  repeat match goal with
         | |- context [?a =? ?b] => destruct (a =? b); [reflexivity|]
         end.
  reflexivity.
Qed.

(** C3: [get_error] selects the class by exact lookup of the status code:
    the ten codes 400, 401, 403, 404, 409, 422, 429, 500, 502 and 503 map
    to their own classes with the default messages of the table, and every
    other code, the 2xx ones included, maps to the generic [HTTPError]. *)
Theorem C3_get_error_selects_by_status (r : response_t) :
  select_class (status_code r) = spec_variant (status_code r)
  /\ (select_class (status_code r) <> HTTPError <-> In (status_code r) bespoke_codes)
  /\ (List.length bespoke_codes = 10%nat /\ NoDup bespoke_codes)
  /\ (200 <= status_code r < 300 -> select_class (status_code r) = HTTPError)
  /\ default_error_message (select_class (status_code r)) r
     = spec_default_message (status_code r) (text r)
  /\ get_error r = new_error (spec_variant (status_code r)) r
  /\ (forall e, get_error r = Ok e ->
        class_of e = spec_variant (status_code r)
        /\ self_status_code e = status_code r).
Proof.
  split; [apply select_class_spec|].
  split; [apply select_class_bespoke|].
  split.
  { split; [reflexivity|].
    unfold bespoke_codes.
    repeat (constructor; [simpl; intros H;
      repeat (destruct H as [H|H]; [discriminate H|]); exact H|]).
    constructor. }
  split.
  { intros Hr. destruct (select_class (status_code r)) eqn:Hc; try reflexivity;
      exfalso;
      assert (Hin : In (status_code r) bespoke_codes)
        by (apply select_class_bespoke; rewrite Hc; discriminate);
      unfold bespoke_codes in Hin; simpl in Hin; lia. }
  split; [apply default_message_spec|].
  split; [unfold get_error; now rewrite select_class_spec|].
  intros e He. unfold get_error in He.
  apply new_error_inv in He.
  destruct He as (lines & extra & _ & _ & _ & Hc & _ & Hs).
  rewrite Hc, Hs. split; [apply select_class_spec | reflexivity].
Qed.

Lemma C3_witness :
  exists e, get_error resp_404_entry = Ok e
            /\ class_of e = NotFoundError /\ self_status_code e = 404.
Proof.
  eexists. split; [reflexivity|].
  apply (proj2 (proj2 (proj2 (proj2 (proj2 (proj2
           (C3_get_error_selects_by_status resp_404_entry)))))) _ eq_refl).
Defined.

(** C10: when the body decodes to a JSON value that is not an object (an
    array, a number, a string, ...), the lookup of the keys is applied to a
    value without [get]; the [AttributeError] is not of the class that the
    [except] clause catches, and [get_error] raises it instead of returning
    an error object. *)
Theorem C10_non_mapping_body_raises (r : response_t) (v : pyval) :
  json r = Some v ->
  (forall d, v <> PDict d) ->
  json_error_class AttributeError = false
  /\ get_error r = Raise AttributeError.
Proof.
  intros Hj Hv. split; [reflexivity|].
  assert (Hd : is_dict v = false).
  { destruct v; try reflexivity. exfalso. now apply (Hv d). }
  unfold get_error, new_error.
  rewrite best_available_message_eq, (body_lines_not_dict _ r v Hj Hd).
  reflexivity.
Qed.

Lemma C10_witness :
  json resp_200_list = Some (PList [PInt 1])
  /\ json_error_class AttributeError = false
  /\ get_error resp_200_list = Raise AttributeError.
Proof.
  split; [reflexivity|].
  apply (C10_non_mapping_body_raises resp_200_list (PList [PInt 1]));
    [reflexivity | discriminate].
Defined.

(** ** The message is never empty *)

Lemma message_shape (cls : error_cls) (r : response_t) (e : http_error) :
  new_error cls r = Ok e ->
  exists rest,
    message e = status_line r ++ nl ++ second_line cls r ++ rest.
Proof.
  intros He. apply new_error_inv in He.
  destruct He as (lines & extra & Hb & _ & Hm & _).
  apply body_lines_shape in Hb. destruct Hb as [tail ->].
  rewrite Hm.
  change ((status_line r :: second_line cls r :: tail) ++ extra)%list
    with (status_line r :: second_line cls r :: (tail ++ extra)%list).
  rewrite str_join_cons.
  destruct (str_join_head nl (second_line cls r) (tail ++ extra)%list) as [rest ->].
  now exists rest.
Qed.

(** C2: whenever [get_error] returns an error, its message is not empty and
    starts with the line "HTTP status code: <code>" of the response's status
    code; when the body does not decode, or decodes to a mapping without a
    [message] key, the next line carries the default sentence of the
    class. *)
Theorem C2_message_never_empty (r : response_t) (e : http_error) :
  get_error r = Ok e ->
  message e <> EmptyString
  /\ (exists rest,
        message e = "HTTP status code: " ++ str_of_Z (status_code r) ++ nl ++ rest)
  /\ (json r = None
      \/ (exists d, json r = Some (PDict d) /\ dict_lookup "message" d = None) ->
      exists rest,
        message e = "HTTP status code: " ++ str_of_Z (status_code r) ++ nl
                    ++ "Message: " ++ default_error_message (class_of e) r ++ rest).
Proof.
  intros He. unfold get_error in He.
  pose proof (new_error_inv _ _ _ He) as (_ & _ & _ & _ & _ & Hc & _).
  destruct (message_shape _ _ _ He) as [rest Hm].
  unfold status_line in Hm. rewrite str_app_assoc in Hm.
  split; [rewrite Hm; discriminate|].
  split; [eauto|].
  intros Hcase. exists rest. rewrite Hm, Hc. do 3 f_equal.
  unfold second_line.
  destruct Hcase as [-> | (d & -> & Hd)]; [reflexivity|].
  unfold message_line, dict_get. rewrite Hd. reflexivity.
Qed.

Lemma C2_witness :
  exists e,
    get_error resp_418 = Ok e
    /\ message e <> EmptyString
    /\ (exists rest, message e = "HTTP status code: 418" ++ nl ++ rest)
    /\ (exists rest,
          message e = "HTTP status code: 418" ++ nl
                      ++ "Message: The following error was received: <html>" ++ rest).
Proof.
  eexists. split; [reflexivity|].
  destruct (C2_message_never_empty resp_418 _ eq_refl) as (Hne & Hline & Hdef).
  split; [exact Hne|]. split; [exact Hline|].
  apply Hdef. left. reflexivity.
Defined.

(** ** Classification is a function of what it reads *)

Lemma body_lines_reads (cls : error_cls) (r1 r2 : response_t) :
  status_code r1 = status_code r2 -> text r1 = text r2 -> json r1 = json r2 ->
  body_lines cls r1 = body_lines cls r2.
Proof.
  destruct r1 as [c1 h1 t1 j1], r2 as [c2 h2 t2 j2]. simpl.
  intros -> -> ->. destruct cls; reflexivity.
Qed.

Lemma reset_time_reads (r1 r2 : response_t) :
  headers_lookup RATE_LIMIT_RESET_HEADER_KEY (headers r1)
  = headers_lookup RATE_LIMIT_RESET_HEADER_KEY (headers r2) ->
  has_reset_time r1 = has_reset_time r2
  /\ response_reset_time r1 = response_reset_time r2.
Proof.
  unfold has_reset_time, response_reset_time, headers_contains, headers_getitem.
  now intros ->.
Qed.

(** *** Two calls on one response

    The objects that a call allocates get fresh references, and the call
    writes to these objects only: the response and every other object of the
    caller's store are left as they were. *)

Lemma nth_error_at (h : heap) (o : obj) (t : heap) :
  nth_error (h ++ o :: t) (List.length h) = Some o.
Proof. induction h as [|x h IH]; [reflexivity | exact IH]. Qed.

Lemma nth_error_old (h t : heap) (a : addr) (o : obj) :
  nth_error h a = Some o -> nth_error (h ++ t) a = Some o.
Proof.
  intros H. rewrite nth_error_app1; [exact H|].
  apply nth_error_Some. congruence.
Qed.

Lemma update_at (h : heap) (o : obj) (t : heap) (f : obj -> obj) :
  update (h ++ o :: t)%list (List.length h) f = (h ++ f o :: t)%list.
Proof. induction h as [|x h IH]; [reflexivity | simpl; now rewrite IH]. Qed.

Lemma response_at_old (h t : heap) (a : addr) (r : response_t) :
  response_at h a = Some r -> response_at (h ++ t)%list a = Some r.
Proof.
  unfold response_at. destruct (nth_error h a) as [o|] eqn:Ho; [|discriminate].
  now rewrite (nth_error_old h t a o Ho).
Qed.

Lemma load_at (h : heap) (o : obj) (t : heap) :
  load (List.length h) (h ++ o :: t)%list = (Ok o, (h ++ o :: t)%list).
Proof. unfold load. now rewrite nth_error_at. Qed.

Lemma load_at_under (h : heap) (o p : obj) :
  load (List.length h) ((h ++ [o]) ++ [p])%list
  = (Ok o, ((h ++ [o]) ++ [p])%list).
Proof.
  unfold load. rewrite <- app_assoc. cbn [app]. now rewrite nth_error_at.
Qed.

Lemma update_at_under (h : heap) (o p : obj) (f : obj -> obj) :
  update ((h ++ [o]) ++ [p])%list (List.length h) f
  = ((h ++ [f o]) ++ [p])%list.
Proof.
  rewrite <- !app_assoc. cbn [app]. apply update_at.
Qed.

Lemma load_response_at (h : heap) (a : addr) (r : response_t) :
  response_at h a = Some r -> load_response a h = (Ok r, h).
Proof.
  unfold response_at, load_response, sbind, load.
  destruct (nth_error h a) as [[]|]; try discriminate.
  now intros [= ->].
Qed.

(** The outcome of composing the message, as [_best_available_message]
    turns it into a string or lets the exception through. *)
Lemma best_available_message_compose (cls : error_cls) (r : response_t) :
  best_available_message cls r =
    match compose_lines cls r
            ["HTTP status code: " ++ py_str (PInt (status_code r))] with
    | (Ok _, items) => Ok (str_join nl items)
    | (Raise x, _) => Raise x
    end.
Proof. reflexivity. Qed.

Ltac keep_response Hr :=
  first [ exact Hr | apply response_at_old; keep_response Hr ].

Ltac run_store a r Hr :=
  repeat (first [ rewrite load_at
                | rewrite load_at_under
                | rewrite update_at
                | rewrite update_at_under
                | rewrite nth_error_at
                | rewrite (load_response_at _ a r) by keep_response Hr ];
          cbv beta iota).

Lemma best_available_message_st_run (h : heap) (a : addr) (r : response_t)
    (cls : error_cls) (args : option string) :
  response_at h a = Some r ->
  exists items,
    best_available_message_st (List.length h) a
      (h ++ [ErrorObj cls (Some a) (Some (status_code r)) args])%list
    = (best_available_message cls r,
       ((h ++ [ErrorObj cls (Some a) (Some (status_code r)) args])
          ++ [ListObj items])%list).
Proof.
  intros Hr.
  rewrite best_available_message_compose.
  unfold best_available_message_st, compose_lines, cbind,
    load_class, load_self_status_code, load_self_response, load_items, alloc,
    sbind, sret, sraise.
  run_store a r Hr. unfold on_list at 1. run_store a r Hr.
  destruct (try_except (try_body cls r) json_error_class
              (append_line ("Message: " ++ default_error_message cls r))
              ["HTTP status code: " ++ py_str (PInt (status_code r))])
    as [[u|x] L1]; run_store a r Hr.
  - destruct (has_additional_error_info cls r).
    + unfold slift. destruct (additional_error_info cls r) as [info|x];
        cbv beta iota.
      * unfold on_list, extend_lines. run_store a r Hr. eexists. reflexivity.
      * eexists. reflexivity.
    + unfold cret. run_store a r Hr. eexists. reflexivity.
  - eexists. reflexivity.
Qed.

Lemma new_error_st_run (h : heap) (a : addr) (r : response_t) (cls : error_cls) :
  response_at h a = Some r ->
  exists items,
    new_error_st cls a h
    = (match new_error cls r with
       | Ok _ => Ok (List.length h)
       | Raise x => Raise x
       end,
       ((h ++ [ErrorObj cls (Some a) (Some (status_code r))
                 (match new_error cls r with
                  | Ok e => Some (message e)
                  | Raise _ => None
                  end)])
          ++ [ListObj items])%list).
Proof.
  intros Hr.
  destruct (best_available_message_st_run h a r cls None Hr) as [items Hrun].
  exists items.
  unfold new_error_st, sbind, sret, alloc, set_self_response,
    set_self_status_code, set_self_args, modify.
  run_store a r Hr. rewrite Hrun. unfold new_error.
  destruct (best_available_message cls r) as [msg|x]; cbn [rbind message];
    run_store a r Hr; reflexivity.
Qed.

(** One call, from a store in which [a] refers to the response [r]: three
    objects are added after those of the caller, and the outcome is the one
    of the function [get_error]. *)
Lemma get_error_st_run (h : heap) (a : addr) (r : response_t) :
  response_at h a = Some r ->
  exists items,
    get_error_st a h
    = (match get_error r with
       | Ok _ => Ok (S (List.length h))
       | Raise x => Raise x
       end,
       (((h ++ [DictObj errors])
           ++ [ErrorObj (select_class (status_code r)) (Some a)
                 (Some (status_code r))
                 (match get_error r with
                  | Ok e => Some (message e)
                  | Raise _ => None
                  end)])
          ++ [ListObj items])%list).
Proof.
  intros Hr.
  assert (Hr1 : response_at (h ++ [DictObj errors])%list a = Some r)
    by now apply response_at_old.
  destruct (new_error_st_run _ a r (select_class (status_code r)) Hr1)
    as [items Hrun].
  exists items.
  unfold get_error_st, alloc, load_dict, sbind, sret, sraise.
  run_store a r Hr1.
  change (match errors_lookup (status_code r) errors with
          | Some cls => cls
          | None => HTTPError
          end) with (select_class (status_code r)).
  rewrite Hrun.
  unfold get_error. rewrite length_app, Nat.add_comm. reflexivity.
Qed.

(** What is read off a store that holds the error built from [r]. *)
Lemma observe_st_built (H : heap) (a self : addr) (r : response_t) :
  response_at H a = Some r ->
  nth_error H self
  = Some (ErrorObj (select_class (status_code r)) (Some a) (Some (status_code r))
            (match get_error r with
             | Ok e => Some (message e)
             | Raise _ => None
             end)) ->
  observe_st H (match get_error r with
                | Ok _ => Ok self
                | Raise x => Raise x
                end)
  = observe (get_error r).
Proof.
  intros Hr Hself.
  destruct (get_error r) as [e|x] eqn:He; [|reflexivity].
  unfold get_error in He.
  destruct (new_error_inv _ _ _ He) as (_ & _ & _ & _ & _ & Hcls & Hresp & Hs).
  assert (Hload : load self H
                  = (Ok (ErrorObj (select_class (status_code r)) (Some a)
                           (Some (status_code r)) (Some (message e))), H))
    by (unfold load; now rewrite Hself).
  unfold observe_st, observe. rewrite Hself.
  unfold reset_time_st, reset_time, load_class, load_self_response,
    sbind, sret, sraise.
  rewrite Hload. cbv beta iota. rewrite Hcls, Hs, Hresp.
  destruct (select_class (status_code r)); try reflexivity.
  rewrite Hload. cbv beta iota.
  now rewrite (load_response_at H a r Hr).
Qed.

(** C9: two calls of [get_error] on one response, the second starting from
    the store that the first has left, give structurally equal errors: the
    first call leaves the response as it was, the two outcomes read the same
    (same class, status code, message and reset time, or the same
    exception), as the function [get_error] says of the response, two
    returned errors are two objects, and every object that the store held
    before the calls is still what it was. *)
Theorem C9_two_calls_agree (h : heap) (a : addr) (r : response_t)
    (out1 out2 : result addr) (h1 h2 : heap) :
  response_at h a = Some r ->
  get_error_st a h = (out1, h1) ->
  get_error_st a h1 = (out2, h2) ->
  response_at h1 a = Some r
  /\ response_at h2 a = Some r
  /\ observe_st h2 out1 = observe_st h2 out2
  /\ observe_st h2 out2 = observe (get_error r)
  /\ (forall e1 e2, out1 = Ok e1 -> out2 = Ok e2 -> e1 <> e2)
  /\ (forall b o, nth_error h b = Some o -> nth_error h2 b = Some o).
Proof.
  intros Hr Hcall1 Hcall2.
  destruct (get_error_st_run h a r Hr) as [items1 Hrun1].
  rewrite Hrun1 in Hcall1. injection Hcall1 as <- <-.
  set (E := ErrorObj (select_class (status_code r)) (Some a) (Some (status_code r))
              (match get_error r with
               | Ok e => Some (message e)
               | Raise _ => None
               end)) in *.
  set (h1 := (((h ++ [DictObj errors]) ++ [E]) ++ [ListObj items1])%list) in *.
  assert (Hr1 : response_at h1 a = Some r)
    by (unfold h1; now repeat apply response_at_old).
  destruct (get_error_st_run h1 a r Hr1) as [items2 Hrun2].
  rewrite Hrun2 in Hcall2. injection Hcall2 as <- <-. fold E.
  set (h2 := (((h1 ++ [DictObj errors]) ++ [E]) ++ [ListObj items2])%list).
  assert (Hr2 : response_at h2 a = Some r)
    by (unfold h2; now repeat apply response_at_old).
  assert (Hself1 : nth_error h2 (S (List.length h)) = Some E).
  { replace (S (List.length h)) with (List.length (h ++ [DictObj errors])%list)
      by (rewrite length_app, Nat.add_comm; reflexivity).
    unfold h2, h1. do 4 apply nth_error_old. apply nth_error_at. }
  assert (Hself2 : nth_error h2 (S (List.length h1)) = Some E).
  { replace (S (List.length h1)) with (List.length (h1 ++ [DictObj errors])%list)
      by (rewrite length_app, Nat.add_comm; reflexivity).
    unfold h2. apply nth_error_old. apply nth_error_at. }
  split; [exact Hr1|]. split; [exact Hr2|].
  pose proof (observe_st_built h2 a _ r Hr2 Hself1) as Hobs1.
  pose proof (observe_st_built h2 a _ r Hr2 Hself2) as Hobs2.
  split; [exact (eq_trans Hobs1 (eq_sym Hobs2))|]. split; [exact Hobs2|].
  split.
  - intros e1 e2 H1 H2. destruct (get_error r); [|discriminate H1].
    injection H1 as <-. injection H2 as <-.
    unfold h1. rewrite !length_app. simpl. lia.
  - intros b o Hb. unfold h2, h1. now do 6 apply nth_error_old.
Qed.

Lemma C9_witness :
  let '(out1, h1) := get_error_st 1%nat sample_heap in
  let '(out2, h2) := get_error_st 1%nat h1 in
  response_at h2 1%nat = Some resp_429_reset
  /\ observe_st h2 out1 = observe_st h2 out2
  /\ observe_st h2 out2 = observe (get_error resp_429_reset)
  /\ out1 <> out2.
Proof.
  destruct (get_error_st 1%nat sample_heap) as [out1 h1] eqn:Hcall1.
  destruct (get_error_st 1%nat h1) as [out2 h2] eqn:Hcall2.
  destruct (C9_two_calls_agree sample_heap 1%nat resp_429_reset
              out1 out2 h1 h2 eq_refl Hcall1 Hcall2)
    as (_ & Hr2 & Hsame & Hfun & Hdiff & _).
  split; [exact Hr2|]. split; [exact Hsame|]. split; [exact Hfun|].
  assert (Hok : exists v, observe (get_error resp_429_reset) = Ok v)
    by (eexists; reflexivity).
  destruct Hok as [v Hv]. rewrite Hv in Hfun. rewrite Hfun in Hsame.
  destruct out1 as [e1|x1]; [|discriminate Hsame].
  destruct out2 as [e2|x2]; [|discriminate Hfun].
  intros Heq. injection Heq as Heq. exact (Hdiff e1 e2 eq_refl eq_refl Heq).
Defined.

(** ** The additional information of the rate-limit class *)

Lemma extra_other_class (cls : error_cls) (r : response_t) :
  cls <> RateLimitExceededError ->
  (if has_additional_error_info cls r
   then additional_error_info cls r else Ok []) = Ok [].
Proof. destruct cls; intros H; try reflexivity. congruence. Qed.

Lemma extra_no_header (cls : error_cls) (r : response_t) :
  headers_lookup RATE_LIMIT_RESET_HEADER_KEY (headers r) = None ->
  (if has_additional_error_info cls r
   then additional_error_info cls r else Ok []) = Ok [].
Proof.
  intros Hh. destruct cls; try reflexivity.
  simpl. unfold has_reset_time, headers_contains. now rewrite Hh.
Qed.

Lemma extra_with_header (r : response_t) (v : string) (n : Z) :
  headers_lookup RATE_LIMIT_RESET_HEADER_KEY (headers r) = Some v ->
  py_int v = Ok n ->
  (if has_additional_error_info RateLimitExceededError r
   then additional_error_info RateLimitExceededError r else Ok [])
  = Ok ["Time until reset (seconds): " ++ str_of_Z n].
Proof.
  intros Hh Hn. simpl.
  unfold has_reset_time, headers_contains, response_reset_time, headers_getitem.
  rewrite Hh. simpl. rewrite Hn. reflexivity.
Qed.

Lemma select_class_other (code : Z) :
  code <> 429 -> select_class code <> RateLimitExceededError.
Proof.
  intros Hc. rewrite select_class_spec. unfold spec_variant.
  repeat match goal with
         | |- context [code =? ?b] =>
             destruct (Z.eqb_spec code b); [try discriminate; contradiction|]
         end.
  discriminate.
Qed.

(** ** A body that does not decode *)

Lemma unparsed_two_lines (r : response_t) :
  json r = None ->
  status_code r <> 429
  \/ headers_lookup RATE_LIMIT_RESET_HEADER_KEY (headers r) = None ->
  exists e,
    get_error r = Ok e
    /\ message e = "HTTP status code: " ++ str_of_Z (status_code r) ++ nl
                   ++ "Message: " ++ default_error_message (class_of e) r.
Proof.
  intros Hj Hcase.
  assert (Hx : (if has_additional_error_info (select_class (status_code r)) r
                then additional_error_info (select_class (status_code r)) r
                else Ok []) = Ok []).
  { destruct Hcase as [Hc|Hh];
      [apply extra_other_class, select_class_other, Hc
      | apply extra_no_header, Hh]. }
  eexists. split.
  - unfold get_error.
    apply (new_error_intro _ r _ _ (body_lines_unparsed _ r Hj) Hx).
  - reflexivity.
Qed.

Lemma unparsed_three_lines (r : response_t) (v : string) (n : Z) :
  json r = None ->
  status_code r = 429 ->
  headers_lookup RATE_LIMIT_RESET_HEADER_KEY (headers r) = Some v ->
  py_int v = Ok n ->
  exists e,
    get_error r = Ok e
    /\ class_of e = RateLimitExceededError
    /\ message e = "HTTP status code: 429" ++ nl
                   ++ "Message: Rate limit exceeded. Too many requests." ++ nl
                   ++ "Time until reset (seconds): " ++ str_of_Z n.
Proof.
  intros Hj Hc Hh Hn.
  eexists. split; [|split].
  - unfold get_error. rewrite Hc.
    change (select_class 429) with RateLimitExceededError.
    apply (new_error_intro _ r _ _ (body_lines_unparsed _ r Hj)
             (extra_with_header r v n Hh Hn)).
  - reflexivity.
  - simpl. unfold status_line. rewrite Hc. reflexivity.
Qed.

(** C4, as the code has it: when the body does not decode, the message is
    exactly the status line and the default message of the class, for every
    class without additional information, that is, every response but a 429
    one that carries the reset header; a 429 response whose reset header
    holds the integer [n] gets the third line
    "Time until reset (seconds): n". *)
Theorem C4_unparsed_body_message (r : response_t) :
  json r = None ->
  (status_code r <> 429
   \/ headers_lookup RATE_LIMIT_RESET_HEADER_KEY (headers r) = None ->
   exists e,
     get_error r = Ok e
     /\ message e = "HTTP status code: " ++ str_of_Z (status_code r) ++ nl
                    ++ "Message: " ++ default_error_message (class_of e) r)
  /\ (forall v n,
        status_code r = 429 ->
        headers_lookup RATE_LIMIT_RESET_HEADER_KEY (headers r) = Some v ->
        py_int v = Ok n ->
        exists e,
          get_error r = Ok e
          /\ message e = "HTTP status code: 429" ++ nl
                         ++ "Message: Rate limit exceeded. Too many requests." ++ nl
                         ++ "Time until reset (seconds): " ++ str_of_Z n).
Proof.
  intros Hj. split.
  - apply unparsed_two_lines, Hj.
  - intros v n Hc Hh Hn.
    destruct (unparsed_three_lines r v n Hj Hc Hh Hn) as (e & He & _ & Hm).
    now exists e.
Qed.

Lemma C4_witness :
  (exists e,
     get_error resp_418 = Ok e
     /\ message e = "HTTP status code: 418" ++ nl
                    ++ "Message: The following error was received: <html>")
  /\ (exists e,
        get_error resp_429_reset = Ok e
        /\ message e = "HTTP status code: 429" ++ nl
                       ++ "Message: Rate limit exceeded. Too many requests." ++ nl
                       ++ "Time until reset (seconds): 5").
Proof.
  split.
  - destruct (proj1 (C4_unparsed_body_message resp_418 eq_refl))
      as (e & He & Hm); [left; discriminate|].
    exists e. split; [exact He|].
    rewrite Hm. injection He as <-. reflexivity.
  - apply (proj2 (C4_unparsed_body_message resp_429_reset eq_refl) "5" 5);
      reflexivity.
Defined.

(** The claim C4 as stated fails on a 429 response of undecodable body that
    carries the reset header: the message has a third line. *)
Lemma C4_counterexample :
  json resp_429_reset = None
  /\ exists e,
       get_error resp_429_reset = Ok e
       /\ message e = "HTTP status code: 429" ++ nl
                      ++ "Message: Rate limit exceeded. Too many requests." ++ nl
                      ++ "Time until reset (seconds): 5"
       /\ message e <> "HTTP status code: 429" ++ nl
                       ++ "Message: " ++ default_error_message (class_of e) resp_429_reset.
Proof.
  split; [reflexivity|].
  eexists. split; [reflexivity|]. split; [reflexivity|]. discriminate.
Qed.

(** ** When the construction returns and when it raises *)

Lemma details_key_error (cls : error_cls) (r : response_t)
    (d details : list (string * pyval)) :
  json r = Some (PDict d) ->
  dict_lookup "details" d = Some (PDict details) ->
  handle_details cls r (PDict details) = Raise KeyError ->
  new_error cls r = Raise KeyError.
Proof.
  intros Hj Hd Hk. unfold new_error.
  rewrite best_available_message_eq, (body_lines_dict cls r d Hj).
  unfold dict_get. rewrite Hd. simpl. rewrite Hk. reflexivity.
Qed.

(** C1, as the code has it: [get_error] returns an error object with the
    default message of the class when the body does not decode (for a 429
    response, provided that the reset header is absent or holds an integer);
    a [details] mapping of unexpected shape is not absorbed: without
    [reasons] on a 403, without [type] on a 404 or without [errors] on a 422
    response, the construction raises [KeyError]. *)
Theorem C1_get_error_failure_semantics (r : response_t) :
  (json r = None ->
   (forall v, status_code r = 429 ->
              headers_lookup RATE_LIMIT_RESET_HEADER_KEY (headers r) = Some v ->
              exists n, py_int v = Ok n) ->
   exists e rest,
     get_error r = Ok e
     /\ message e = "HTTP status code: " ++ str_of_Z (status_code r) ++ nl
                    ++ "Message: " ++ default_error_message (class_of e) r ++ rest)
  /\ (forall d details,
        json r = Some (PDict d) ->
        dict_lookup "details" d = Some (PDict details) ->
        (status_code r = 403 /\ dict_lookup "reasons" details = None)
        \/ (status_code r = 404 /\ dict_lookup "type" details = None)
        \/ (status_code r = 422 /\ dict_lookup "errors" details = None) ->
        get_error r = Raise KeyError).
Proof.
  split.
  - intros Hj Hint.
    destruct (Z.eq_dec (status_code r) 429) as [Hc|Hc].
    + destruct (headers_lookup RATE_LIMIT_RESET_HEADER_KEY (headers r))
        as [v|] eqn:Hh.
      * destruct (Hint v Hc eq_refl) as [n Hn].
        destruct (unparsed_three_lines r v n Hj Hc Hh Hn) as (e & He & Hcls & Hm).
        exists e, (nl ++ "Time until reset (seconds): " ++ str_of_Z n).
        split; [exact He|]. rewrite Hm, Hcls, Hc. reflexivity.
      * destruct (unparsed_two_lines r Hj (or_intror Hh)) as (e & He & Hm).
        exists e, EmptyString. split; [exact He|].
        now rewrite Hm, !str_app_nil_r.
    + destruct (unparsed_two_lines r Hj (or_introl Hc)) as (e & He & Hm).
      exists e, EmptyString. split; [exact He|].
      now rewrite Hm, !str_app_nil_r.
  - intros d details Hj Hd Hcase. unfold get_error.
    apply (details_key_error _ r d details Hj Hd).
    destruct Hcase as [[-> Hk] | [[-> Hk] | [-> Hk]]]; simpl;
      unfold AccessDeniedError_handle_details, NotFoundError_handle_details,
        UnprocessableEntityError_handle_details, py_getitem;
      simpl; now rewrite Hk.
Qed.

Lemma C1_witness :
  (exists e rest,
     get_error resp_429_reset = Ok e
     /\ message e = "HTTP status code: 429" ++ nl
                    ++ "Message: " ++ default_error_message (class_of e) resp_429_reset
                    ++ rest)
  /\ get_error resp_403_no_reasons = Raise KeyError.
Proof.
  split.
  - apply (proj1 (C1_get_error_failure_semantics resp_429_reset) eq_refl).
    intros v _ Hv. injection Hv as <-. exists 5. reflexivity.
  - apply (proj2 (C1_get_error_failure_semantics resp_403_no_reasons)
             [("details", PDict [])] [] eq_refl eq_refl).
    left. split; reflexivity.
Defined.

(** The claim C1 as stated fails on a 403 response whose [details] mapping
    has no [reasons] key: no error object is returned. *)
Lemma C1_counterexample :
  json resp_403_no_reasons = Some (PDict [("details", PDict [])])
  /\ get_error resp_403_no_reasons = Raise KeyError
  /\ ~ (exists e, get_error resp_403_no_reasons = Ok e).
Proof.
  split; [reflexivity|]. split; [reflexivity|].
  intros [e He]. discriminate He.
Qed.

(** ** The reset time of a 429 response *)

Lemma body_lines_rate_limit (r : response_t) :
  json r = None \/ (exists d, json r = Some (PDict d)) ->
  exists lines, body_lines RateLimitExceededError r = Ok lines.
Proof.
  intros [Hj | [d Hj]].
  - rewrite (body_lines_unparsed _ r Hj). eauto.
  - rewrite (body_lines_dict _ r d Hj). simpl.
    destruct (is_none (dict_get "details" d)); simpl; eauto.
Qed.

(** C5: a 429 response whose headers hold the key
    x-contentful-ratelimit-reset, in any letter case, with the value "5"
    gives a [RateLimitExceededError] whose [reset_time] is the integer 5 and
    whose message ends with the line "Time until reset (seconds): 5"; the
    construction returns whenever the body does not decode or decodes to a
    mapping.  Without the header the message stops at the lines of the
    body, and [reset_time] has no value to give ([KeyError]). *)
Theorem C5_rate_limit_reset_time (r : response_t) :
  status_code r = 429 ->
  (headers_lookup RATE_LIMIT_RESET_HEADER_KEY (headers r) = Some "5" ->
   (json r = None \/ (exists d, json r = Some (PDict d)) ->
    exists e, get_error r = Ok e)
   /\ (forall e,
         get_error r = Ok e ->
         class_of e = RateLimitExceededError
         /\ reset_time e = Ok 5
         /\ exists lines,
              body_lines RateLimitExceededError r = Ok lines
              /\ message e = str_join nl lines ++ nl
                             ++ "Time until reset (seconds): 5"))
  /\ (headers_lookup RATE_LIMIT_RESET_HEADER_KEY (headers r) = None ->
      forall e,
        get_error r = Ok e ->
        class_of e = RateLimitExceededError
        /\ reset_time e = Raise KeyError
        /\ exists lines,
             body_lines RateLimitExceededError r = Ok lines
             /\ message e = str_join nl lines).
Proof.
  intros Hc. unfold get_error. rewrite Hc.
  change (select_class 429) with RateLimitExceededError.
  split.
  - intros Hh.
    pose proof (extra_with_header r "5" 5 Hh eq_refl) as Hx.
    split.
    + intros Hbody. destruct (body_lines_rate_limit r Hbody) as [lines Hl].
      eexists. apply (new_error_intro _ r _ _ Hl Hx).
    + intros e He. apply new_error_inv in He.
      destruct He as (lines & extra & Hl & Hx' & Hm & Hcls & Hr & _).
      rewrite Hx in Hx'. injection Hx' as <-.
      split; [exact Hcls|]. split.
      * unfold reset_time, response_reset_time, headers_getitem.
        rewrite Hcls, Hr, Hh. reflexivity.
      * exists lines. split; [exact Hl|].
        rewrite Hm. apply str_join_snoc.
        destruct (body_lines_shape _ r lines Hl) as [tail ->]. discriminate.
  - intros Hh e He. apply new_error_inv in He.
    destruct He as (lines & extra & Hl & Hx' & Hm & Hcls & Hr & _).
    rewrite (extra_no_header _ r Hh) in Hx'. injection Hx' as <-.
    split; [exact Hcls|]. split.
    + unfold reset_time, response_reset_time, headers_getitem.
      rewrite Hcls, Hr, Hh. reflexivity.
    + exists lines. split; [exact Hl|]. now rewrite Hm, app_nil_r.
Qed.

Lemma C5_witness :
  (exists e,
     get_error resp_429_reset = Ok e
     /\ reset_time e = Ok 5
     /\ message e = "HTTP status code: 429" ++ nl
                    ++ "Message: Rate limit exceeded. Too many requests." ++ nl
                    ++ "Time until reset (seconds): 5")
  /\ (exists e,
        get_error resp_429_plain = Ok e
        /\ reset_time e = Raise KeyError
        /\ message e = "HTTP status code: 429" ++ nl
                       ++ "Message: Rate limit exceeded. Too many requests.").
Proof.
  split.
  - destruct (proj1 (C5_rate_limit_reset_time resp_429_reset eq_refl) eq_refl)
      as [Hex Hall].
    destruct (Hex (or_introl eq_refl)) as [e He].
    exists e. destruct (Hall e He) as (_ & Hr & _).
    split; [exact He|]. split; [exact Hr|].
    injection He as <-. reflexivity.
  - eexists. split; [reflexivity|].
    destruct (proj2 (C5_rate_limit_reset_time resp_429_plain eq_refl) eq_refl
                _ eq_refl) as (_ & Hr & _).
    split; [exact Hr | reflexivity].
Defined.

(** ** The Details line *)

Lemma details_line_intro (r : response_t) (d : list (string * pyval))
    (details : pyval) (txt : string) :
  select_class (status_code r) <> RateLimitExceededError ->
  json r = Some (PDict d) ->
  dict_lookup "details" d = Some details ->
  is_none details = false ->
  handle_details (select_class (status_code r)) r details = Ok txt ->
  details_line_is r d txt.
Proof.
  intros Hcls Hj Hd Hn Htxt. unfold details_line_is, get_error.
  eexists. split.
  - eapply new_error_intro; [|apply (extra_other_class _ r Hcls)].
    rewrite (body_lines_dict _ r d Hj).
    unfold dict_get at 1 2. rewrite Hd, Hn, Htxt. reflexivity.
  - simpl message. simpl class_of. now rewrite app_nil_r.
Qed.

Lemma details_raise (r : response_t) (d : list (string * pyval))
    (details : pyval) (x : exn) :
  json r = Some (PDict d) ->
  dict_lookup "details" d = Some details ->
  is_none details = false ->
  handle_details (select_class (status_code r)) r details = Raise x ->
  get_error r = Raise x.
Proof.
  intros Hj Hd Hn Hx. unfold get_error, new_error.
  rewrite best_available_message_eq, (body_lines_dict _ r d Hj).
  unfold dict_get. rewrite Hd, Hn. simpl. rewrite Hx. reflexivity.
Qed.

Lemma not_found_text (dd : list (string * pyval)) :
  has_key "type" dd = true ->
  NotFoundError_handle_details (PDict dd) = Ok (spec_not_found_text dd).
Proof.
  unfold NotFoundError_handle_details, spec_not_found_text, py_getitem, py_get,
    has_key, dict_get.
  cbn [string_class].
  destruct (dict_lookup "type" dd) as [t|]; [intros _ | discriminate].
  cbn [rbind].
  destruct (dict_lookup "id" dd) as [i|]; cbn [rbind].
  - destruct (is_none i); cbn [negb]; apply f_equal.
    + now rewrite !str_app_nil_r.
    + now rewrite !str_app_assoc.
  - cbn [is_none negb]. now rewrite !str_app_nil_r.
Qed.

(** C6, as the code has it: on a 404 response with a non-null [details], a
    string is the Details text unchanged; a mapping with a [type] key gives
    "The requested <type> could not be found.", followed by " ID: <id>."
    when the mapping has a non-null [id]; so type Entry and id abc give
    "The requested Entry could not be found. ID: abc.".  A mapping without
    [type] raises [KeyError], and a value that is neither a string nor a
    mapping raises [TypeError]. *)
Theorem C6_not_found_details (r : response_t) (d : list (string * pyval))
    (details : pyval) :
  status_code r = 404 ->
  json r = Some (PDict d) ->
  dict_lookup "details" d = Some details ->
  (forall s, details = PStr s -> details_line_is r d s)
  /\ (forall dd, details = PDict dd -> has_key "type" dd = true ->
        details_line_is r d (spec_not_found_text dd))
  /\ (forall dd, details = PDict dd -> has_key "type" dd = false ->
        get_error r = Raise KeyError)
  /\ (is_none details = false -> string_class details = false ->
      is_dict details = false -> get_error r = Raise TypeError)
  /\ spec_not_found_text [("type", PStr "Entry"); ("id", PStr "abc")]
     = "The requested Entry could not be found. ID: abc.".
Proof.
  intros Hc Hj Hd.
  assert (Hcls : select_class (status_code r) = NotFoundError) by now rewrite Hc.
  assert (Hne : select_class (status_code r) <> RateLimitExceededError)
    by (rewrite Hcls; discriminate).
  repeat split.
  - intros s ->. apply (details_line_intro r d (PStr s) s Hne Hj Hd eq_refl).
    now rewrite Hcls.
  - intros dd -> Ht.
    apply (details_line_intro r d (PDict dd) _ Hne Hj Hd eq_refl).
    rewrite Hcls. apply (not_found_text dd Ht).
  - intros dd -> Ht.
    apply (details_raise r d (PDict dd) KeyError Hj Hd eq_refl).
    rewrite Hcls. simpl.
    unfold NotFoundError_handle_details, py_getitem, has_key in *. simpl.
    now destruct (dict_lookup "type" dd).
  - intros Hn Hs Hdict.
    apply (details_raise r d details TypeError Hj Hd Hn).
    rewrite Hcls. simpl. unfold NotFoundError_handle_details.
    rewrite Hs. destruct details; try discriminate; reflexivity.
Qed.

Lemma C6_witness :
  details_line_is resp_404_entry
    [("message", PStr "Oops");
     ("details", PDict [("type", PStr "Entry"); ("id", PStr "abc")]);
     ("requestId", PStr "r1")]
    "The requested Entry could not be found. ID: abc."
  /\ get_error resp_404_no_type = Raise KeyError.
Proof.
  split.
  - apply (proj1 (proj2 (C6_not_found_details resp_404_entry _ _
                           eq_refl eq_refl eq_refl)) _ eq_refl eq_refl).
  - apply (proj1 (proj2 (proj2 (C6_not_found_details resp_404_no_type _ _
                                  eq_refl eq_refl eq_refl))) _ eq_refl eq_refl).
Defined.

(** The claim C6 as stated fails on a 404 response whose [details] mapping
    has no [type] key: there is no Details text, the construction raises. *)
Lemma C6_counterexample :
  json resp_404_no_type = body_with_details (PDict [("id", PStr "abc")])
  /\ NotFoundError_handle_details (PDict [("id", PStr "abc")]) = Raise KeyError
  /\ get_error resp_404_no_type = Raise KeyError
  /\ ~ (exists txt,
          NotFoundError_handle_details (PDict [("id", PStr "abc")]) = Ok txt).
Proof.
  repeat split. intros [txt H]. discriminate H.
Qed.

(** ** The details of a 400 response *)

Lemma bad_request_entries (entries : list pyval) :
  forallb detail_entry_ok entries = true ->
  exists inner,
    rmap handle_detail entries = Ok inner
    /\ rmap as_str (filter (fun detail => negb (is_none detail)) inner)
       = Ok (detail_texts entries).
Proof.
  induction entries as [|entry entries IH]; intros Hok.
  - exists []. split; reflexivity.
  - cbn [forallb] in Hok. apply andb_true_iff in Hok. destruct Hok as [He Hrest].
    destruct (IH Hrest) as (inner & Hin & Hstr).
    cbn [rmap detail_texts]. rewrite Hin.
    destruct entry as [| | | |s|l|ed]; try discriminate He.
    + exists (PStr s :: inner). split; [reflexivity|].
      cbn [filter is_none negb rmap as_str rbind detail_entry_text].
      rewrite Hstr. reflexivity.
    + unfold handle_detail. cbn [string_class]. rewrite py_get_dict.
      cbn [detail_entry_ok detail_entry_text] in *.
      exists (dict_get "details" ed :: inner). split; [reflexivity|].
      destruct (dict_get "details" ed); try discriminate He;
        cbn [filter is_none negb rmap as_str rbind]; rewrite ?Hstr; reflexivity.
Qed.

Lemma bad_request_errors_text (dd : list (string * pyval)) (entries : list pyval) :
  dict_lookup "errors" dd = Some (PList entries) ->
  forallb detail_entry_ok entries = true ->
  BadRequestError_handle_details (PDict dd)
  = Ok (str_join (nl ++ tab) (detail_texts entries)).
Proof.
  intros Herr Hok.
  destruct (bad_request_entries entries Hok) as (inner & Hin & Hstr).
  unfold BadRequestError_handle_details, py_contains, py_getitem, py_join.
  cbn [string_class]. rewrite Herr. cbn [rbind py_iter].
  rewrite Hin. cbn [rbind]. rewrite Hstr. reflexivity.
Qed.

(** C7, as the code has it: on a 400 response with a non-null [details],
    a string is returned as it is; a mapping with the key [errors] holding a
    list gives, joined by a newline and a tab, the text of each entry: a
    string entry itself, and the [details] sub-field of a mapping entry
    (entries without one, or with a null one, are skipped); a mapping
    without the key [errors], and a list that does not hold the string
    "errors", give the stringification of the whole value.  A number or a
    boolean raises [TypeError]. *)
Theorem C7_bad_request_details (r : response_t) (d : list (string * pyval))
    (details : pyval) :
  status_code r = 400 ->
  json r = Some (PDict d) ->
  dict_lookup "details" d = Some details ->
  (forall s, details = PStr s -> details_line_is r d s)
  /\ (forall dd entries,
        details = PDict dd ->
        dict_lookup "errors" dd = Some (PList entries) ->
        forallb detail_entry_ok entries = true ->
        details_line_is r d (str_join (nl ++ tab) (detail_texts entries)))
  /\ (forall dd, details = PDict dd -> has_key "errors" dd = false ->
        details_line_is r d (py_str details))
  /\ (forall l, details = PList l -> existsb (is_str_eq "errors") l = false ->
        details_line_is r d (py_str details))
  /\ (is_scalar details = true -> get_error r = Raise TypeError).
Proof.
  intros Hc Hj Hd.
  assert (Hcls : select_class (status_code r) = BadRequestError) by now rewrite Hc.
  assert (Hne : select_class (status_code r) <> RateLimitExceededError)
    by (rewrite Hcls; discriminate).
  repeat split.
  - intros s ->. apply (details_line_intro r d (PStr s) s Hne Hj Hd eq_refl).
    now rewrite Hcls.
  - intros dd entries -> Herr Hok.
    apply (details_line_intro r d (PDict dd) _ Hne Hj Hd eq_refl).
    rewrite Hcls. apply (bad_request_errors_text dd entries Herr Hok).
  - intros dd -> Hk.
    apply (details_line_intro r d (PDict dd) _ Hne Hj Hd eq_refl).
    rewrite Hcls. cbn [handle_details].
    unfold BadRequestError_handle_details, py_contains, has_key in *.
    cbn [string_class rbind].
    now destruct (dict_lookup "errors" dd).
  - intros l -> Hl.
    apply (details_line_intro r d (PList l) _ Hne Hj Hd eq_refl).
    rewrite Hcls. cbn [handle_details].
    unfold BadRequestError_handle_details, py_contains.
    cbn [string_class rbind]. now rewrite Hl.
  - intros Hs.
    assert (Hn : is_none details = false) by (destruct details; easy).
    apply (details_raise r d details TypeError Hj Hd Hn).
    rewrite Hcls. destruct details; try discriminate Hs; reflexivity.
Qed.

Lemma C7_witness :
  details_line_is resp_400_entries
    [("message", PStr "Oops");
     ("details",
      PDict [("errors", PList [PStr "abc"; PDict [("details", PStr "d1")]; PDict []])]);
     ("requestId", PStr "r1")]
    ("abc" ++ nl ++ tab ++ "d1")
  /\ get_error resp_400_number = Raise TypeError.
Proof.
  split.
  - apply (proj1 (proj2 (C7_bad_request_details resp_400_entries _ _
                           eq_refl eq_refl eq_refl)) _ _ eq_refl eq_refl eq_refl).
  - apply (proj2 (proj2 (proj2 (proj2
             (C7_bad_request_details resp_400_number _ _
                eq_refl eq_refl eq_refl))))).
    reflexivity.
Defined.

(** The claim C7 as stated fails twice: a string entry of [details.errors]
    is kept as it is although it has no [details] sub-field, and a [details]
    that is a number raises instead of being stringified. *)
Lemma C7_counterexample :
  BadRequestError_handle_details (PDict [("errors", PList [PStr "abc"])]) = Ok "abc"
  /\ spec_bad_request_details (PDict [("errors", PList [PStr "abc"])]) = EmptyString
  /\ BadRequestError_handle_details (PInt 5) = Raise TypeError
  /\ spec_bad_request_details (PInt 5) = "5"
  /\ get_error resp_400_number = Raise TypeError
  /\ ~ (forall details,
          BadRequestError_handle_details details
          = Ok (spec_bad_request_details details)).
Proof.
  repeat split. intros H. specialize (H (PInt 5)). discriminate H.
Qed.

(** ** The details of a 422 response *)

Lemma handle_error_dict (r : response_t) (entry : list (string * pyval)) :
  handle_error r (PDict entry) = Ok (spec_entry_text entry).
Proof.
  unfold handle_error, spec_entry_text, py_contains, py_getitem, has_key, dict_get.
  cbn [rbind default_error_message].
  destruct (dict_lookup "name" entry) as [n|]; cbn [rbind andb];
    destruct (dict_lookup "path" entry) as [p|]; cbn [rbind andb];
    destruct (dict_lookup "value" entry) as [v|]; cbn [rbind];
    apply f_equal; rewrite ?str_app_nil_r, ?str_app_assoc; reflexivity.
Qed.

Lemma handle_error_entries (r : response_t) (entries : list pyval) :
  forallb is_dict entries = true ->
  rmap (handle_error r) entries = Ok (map spec_entry_text_of entries).
Proof.
  induction entries as [|entry entries IH]; intros Hok; [reflexivity|].
  cbn [forallb] in Hok. apply andb_true_iff in Hok. destruct Hok as [He Hrest].
  destruct entry; try discriminate He.
  cbn [rmap map spec_entry_text_of].
  rewrite handle_error_dict, (IH Hrest). reflexivity.
Qed.

(** C8, as the code has it: on a 422 response whose [details] is a
    mapping with an [errors] list of mappings, the Details text is a newline
    followed by the entries joined by newlines, each entry formatted as
    "<tab>* Name: <name> - Path: '<path>'" when it has both keys and as the
    default message of the class otherwise, with " - Value: '<value>'"
    appended when it has the key [value]; the entry of name title, path
    fields.title and value x gives
    "<tab>* Name: title - Path: 'fields.title' - Value: 'x'". *)
Theorem C8_unprocessable_entity_details (r : response_t)
    (d dd : list (string * pyval)) (entries : list pyval) :
  status_code r = 422 ->
  json r = Some (PDict d) ->
  dict_lookup "details" d = Some (PDict dd) ->
  dict_lookup "errors" dd = Some (PList entries) ->
  forallb is_dict entries = true ->
  details_line_is r d (nl ++ str_join nl (map spec_entry_text_of entries))
  /\ spec_entry_text_of title_entry
     = tab ++ "* Name: title - Path: 'fields.title' - Value: 'x'".
Proof.
  intros Hc Hj Hd Herr Hok.
  assert (Hcls : select_class (status_code r) = UnprocessableEntityError)
    by now rewrite Hc.
  assert (Hne : select_class (status_code r) <> RateLimitExceededError)
    by (rewrite Hcls; discriminate).
  split; [|reflexivity].
  apply (details_line_intro r d (PDict dd) _ Hne Hj Hd eq_refl).
  rewrite Hcls. cbn [handle_details].
  unfold UnprocessableEntityError_handle_details, py_getitem.
  rewrite Herr. cbn [rbind py_iter].
  rewrite (handle_error_entries r entries Hok). reflexivity.
Qed.

Lemma C8_witness :
  details_line_is resp_422_title
    [("message", PStr "Oops");
     ("details", PDict [("errors", PList [title_entry])]);
     ("requestId", PStr "r1")]
    (nl ++ tab ++ "* Name: title - Path: 'fields.title' - Value: 'x'").
Proof.
  apply (proj1 (C8_unprocessable_entity_details resp_422_title _ _ [title_entry]
                  eq_refl eq_refl eq_refl eq_refl eq_refl)).
Defined.

(** The claim C8 as stated fails on an [errors] list that holds a number:
    the entry is not formatted as the default message, the construction
    raises. *)
Lemma C8_counterexample :
  json resp_422_number_entry = body_with_details (PDict [("errors", PList [PInt 5])])
  /\ handle_error resp_422_number_entry (PInt 5) = Raise TypeError
  /\ get_error resp_422_number_entry = Raise TypeError
  /\ ~ (exists txt,
          UnprocessableEntityError_handle_details resp_422_number_entry
            (PDict [("errors", PList [PInt 5])]) = Ok txt).
Proof.
  repeat split. intros [txt H]. discriminate H.
Qed.

(** * Further properties of the module *)

(** ** Which exceptions can escape *)

Lemma never_ok {A : Type} (x : exn) (a : A) : never x (Ok a).
Proof. unfold never; discriminate. Qed.

Lemma never_rbind {A B : Type} (x : exn) (c : result A) (f : A -> result B) :
  never x c -> (forall a, never x (f a)) -> never x (rbind c f).
Proof.
  unfold never. destruct c as [a|e]; simpl; intros Hc Hf; [apply Hf|].
  intros Heq. apply Hc. congruence.
Qed.

Lemma never_rmap {A B : Type} (x : exn) (f : A -> result B) (xs : list A) :
  (forall a, never x (f a)) -> never x (rmap f xs).
Proof.
  intros Hf. induction xs as [|a xs IH]; simpl.
  - apply never_ok.
  - apply never_rbind; [apply Hf|]. intros y.
    apply never_rbind; [exact IH|]. intros ys. apply never_ok.
Qed.

Lemma never_if {A : Type} (x : exn) (b : bool) (c1 c2 : result A) :
  never x c1 -> never x c2 -> never x (if b then c1 else c2).
Proof. now destruct b. Qed.

Lemma never_py_get (x : exn) (v : pyval) (key : string) :
  x <> AttributeError -> never x (py_get v key).
Proof.
  unfold never, py_get. intros Hx.
  destruct v; try congruence. destruct (dict_lookup key d); congruence.
Qed.

Lemma never_py_getitem (x : exn) (v : pyval) (key : string) :
  x <> KeyError -> x <> TypeError -> never x (py_getitem v key).
Proof.
  unfold never, py_getitem. intros Hk Ht.
  destruct v; try congruence. destruct (dict_lookup key d); congruence.
Qed.

Lemma never_py_contains (x : exn) (key : string) (v : pyval) :
  x <> TypeError -> never x (py_contains key v).
Proof. unfold never, py_contains. intros Ht. destruct v; congruence. Qed.

Lemma never_py_iter (x : exn) (v : pyval) :
  x <> TypeError -> never x (py_iter v).
Proof. unfold never, py_iter. intros Ht. destruct v; congruence. Qed.

Lemma never_as_str (x : exn) (v : pyval) :
  x <> TypeError -> never x (as_str v).
Proof. unfold never, as_str. intros Ht. destruct v; congruence. Qed.

Lemma never_py_join (x : exn) (sep : string) (items : list pyval) :
  x <> TypeError -> never x (py_join sep items).
Proof.
  intros Ht. unfold py_join. apply never_rbind.
  - apply never_rmap. intros a. now apply never_as_str.
  - intros parts. apply never_ok.
Qed.

Lemma py_int_cases (s : string) :
  (exists n, py_int s = Ok n) \/ py_int s = Raise ValueError.
Proof.
  unfold py_int.
  match goal with
  | |- context [let '(negative, body) := ?p in _] => destruct p as [negative body]
  end.
  destruct (int_digits body 0 false) as [n|]; [left; eauto | now right].
Qed.

Lemma never_py_int (x : exn) (s : string) :
  x <> ValueError -> never x (py_int s).
Proof.
  unfold never. intros Hv.
  destruct (py_int_cases s) as [[n ->] | ->]; congruence.
Qed.

Lemma classic_cls (cls : error_cls) :
  cls = RateLimitExceededError \/ cls <> RateLimitExceededError.
Proof. destruct cls; (now left) || (right; discriminate). Qed.

Ltac never_tac :=
  repeat first
    [ apply never_ok
    | apply never_py_get; (assumption || discriminate)
    | apply never_py_getitem; (assumption || discriminate)
    | apply never_py_contains; (assumption || discriminate)
    | apply never_py_iter; (assumption || discriminate)
    | apply never_py_join; (assumption || discriminate)
    | apply never_as_str; (assumption || discriminate)
    | apply never_rmap; intro
    | apply never_if
    | apply never_rbind; [|intro] ].

(** Only [AttributeError], [KeyError] and [TypeError] leave a formatter. *)
Lemma never_handle_details (x : exn) (cls : error_cls) (r : response_t)
    (details : pyval) :
  x <> AttributeError -> x <> KeyError -> x <> TypeError ->
  never x (handle_details cls r details).
Proof.
  intros Ha Hk Ht.
  destruct cls; simpl;
    unfold HTTPError_handle_details, BadRequestError_handle_details,
      AccessDeniedError_handle_details, NotFoundError_handle_details,
      UnprocessableEntityError_handle_details, handle_detail, handle_error;
    never_tac.
Qed.

(** How the [try] statement fails: on a decoded value without [get], or in
    the formatter of the details. *)
Lemma body_lines_raise (cls : error_cls) (r : response_t) (x : exn) :
  body_lines cls r = Raise x <->
  (x = AttributeError /\ exists v, json r = Some v /\ is_dict v = false)
  \/ (exists d, json r = Some (PDict d)
                /\ is_none (dict_get "details" d) = false
                /\ handle_details cls r (dict_get "details" d) = Raise x).
Proof.
  destruct (json r) as [v|] eqn:Hj.
  - destruct (is_dict v) eqn:Hd.
    + destruct v; try discriminate Hd.
      rewrite (body_lines_dict cls r d Hj).
      destruct (is_none (dict_get "details" d)) eqn:Hn; simpl.
      * split; [discriminate|].
        intros [(_ & v & Hv & Hd') | (d' & Hd' & Hn' & _)].
        -- injection Hv as <-. discriminate Hd'.
        -- injection Hd' as <-. congruence.
      * destruct (handle_details cls r (dict_get "details" d)) as [txt|y] eqn:Hh;
          simpl.
        -- split; [discriminate|].
           intros [(_ & v & Hv & Hd') | (d' & Hd' & _ & Hx)].
           ++ injection Hv as <-. discriminate Hd'.
           ++ injection Hd' as <-. congruence.
        -- split.
           ++ intros H. injection H as <-. right. exists d. auto.
           ++ intros [(_ & v & Hv & Hd') | (d' & Hd' & _ & Hx)].
              ** injection Hv as <-. discriminate Hd'.
              ** injection Hd' as <-. congruence.
    + rewrite (body_lines_not_dict cls r v Hj Hd). split.
      * intros H. injection H as <-. left. split; [reflexivity|]. eauto.
      * intros [(-> & _) | (d & Hd' & _)]; [reflexivity|].
        injection Hd' as ->. discriminate Hd.
  - rewrite (body_lines_unparsed cls r Hj). split; [discriminate|].
    intros [(_ & v & Hv & _) | (d & Hd' & _)]; discriminate.
Qed.

Lemma body_lines_readable (cls : error_cls) (r : response_t) (lines : list string) :
  body_lines cls r = Ok lines -> body_readable r.
Proof.
  unfold body_readable. destruct (json r) as [v|] eqn:Hj; [|now left].
  destruct (is_dict v) eqn:Hd.
  - destruct v; try discriminate Hd. right. eauto.
  - rewrite (body_lines_not_dict cls r v Hj Hd). discriminate.
Qed.

(** How the additional information fails: on a reset header that [int]
    refuses. *)
Lemma extra_raise (cls : error_cls) (r : response_t) (x : exn) :
  (if has_additional_error_info cls r
   then additional_error_info cls r else Ok []) = Raise x <->
  cls = RateLimitExceededError /\ x = ValueError
  /\ exists v, headers_lookup RATE_LIMIT_RESET_HEADER_KEY (headers r) = Some v
               /\ py_int v = Raise ValueError.
Proof.
  destruct (classic_cls cls) as [-> | Hcls].
  - simpl. unfold has_reset_time, headers_contains, response_reset_time,
      headers_getitem.
    destruct (headers_lookup RATE_LIMIT_RESET_HEADER_KEY (headers r)) as [v|];
      simpl.
    + destruct (py_int_cases v) as [[n Hn] | Hn]; rewrite Hn; simpl.
      * split; [discriminate|]. intros (_ & _ & v' & Hv & Hn').
        injection Hv as <-. congruence.
      * split.
        -- intros H. injection H as <-. repeat split. eauto.
        -- intros (_ & -> & _). reflexivity.
    + split; [discriminate|]. intros (_ & _ & v' & Hv & _). discriminate.
  - rewrite (extra_other_class cls r Hcls). split; [discriminate|].
    intros (Hc & _). contradiction.
Qed.

Lemma new_error_raise (cls : error_cls) (r : response_t) (x : exn) :
  new_error cls r = Raise x <->
  body_lines cls r = Raise x
  \/ ((exists lines, body_lines cls r = Ok lines)
      /\ (if has_additional_error_info cls r
          then additional_error_info cls r else Ok []) = Raise x).
Proof.
  unfold new_error. rewrite best_available_message_eq.
  destruct (body_lines cls r) as [lines|y]; simpl.
  - destruct (if has_additional_error_info cls r
              then additional_error_info cls r else Ok []) as [extra|y]; simpl.
    + split; [discriminate|]. intros [H | [_ H]]; discriminate.
    + split.
      * intros H. injection H as <-. right. split; eauto.
      * intros [H | [_ H]]; [discriminate | congruence].
  - split.
    + intros H. injection H as <-. now left.
    + intros [H | [[lines H] _]]; [congruence | discriminate].
Qed.

Lemma select_class_inv (code : Z) :
  (select_class code = BadRequestError -> code = 400)
  /\ (select_class code = AccessDeniedError -> code = 403)
  /\ (select_class code = NotFoundError -> code = 404)
  /\ (select_class code = UnprocessableEntityError -> code = 422)
  /\ (select_class code = RateLimitExceededError -> code = 429).
Proof.
  rewrite select_class_spec. unfold spec_variant.
  repeat match goal with
         | |- context [code =? ?b] =>
             destruct (Z.eqb_spec code b);
             [subst code; repeat split; intros H; (reflexivity || discriminate H)|]
         end.
  repeat split; discriminate.
Qed.

(** X1: the error of the JSON decoding never leaves [get_error]: whatever
    the response, the exception of a malformed body is absorbed by the
    [except] clause, and nothing else in the construction raises it. *)
Theorem X1_json_error_never_escapes (r : response_t) :
  get_error r <> Raise ParseError.
Proof.
  unfold get_error. intros H. apply new_error_raise in H.
  destruct H as [H | [_ H]].
  - apply body_lines_raise in H.
    destruct H as [(H & _) | (d & _ & _ & H)]; [discriminate|].
    now apply quiet_handle_details in H.
  - apply extra_raise in H. destruct H as (_ & H & _). discriminate.
Qed.

(** X2: [ValueError] leaves [get_error] exactly when a 429 response, of a
    body that does not decode or decodes to a mapping, carries a reset
    header that [int] refuses. *)
Theorem X2_value_error_iff (r : response_t) :
  get_error r = Raise ValueError <->
  status_code r = 429
  /\ body_readable r
  /\ exists v, headers_lookup RATE_LIMIT_RESET_HEADER_KEY (headers r) = Some v
               /\ py_int v = Raise ValueError.
Proof.
  unfold get_error. rewrite new_error_raise. split.
  - intros [H | [[lines Hl] H]].
    + exfalso. apply body_lines_raise in H.
      destruct H as [(H & _) | (d & _ & _ & H)]; [discriminate|].
      revert H. apply never_handle_details; discriminate.
    + apply extra_raise in H. destruct H as (Hcls & _ & Hv).
      split; [now apply select_class_inv|].
      split; [exact (body_lines_readable _ r lines Hl) | exact Hv].
  - intros (Hc & Hb & Hv). right. rewrite Hc.
    change (select_class 429) with RateLimitExceededError.
    split; [exact (body_lines_rate_limit r Hb)|].
    apply extra_raise. auto.
Qed.

Lemma X2_witness : get_error resp_429_bad_reset = Raise ValueError.
Proof.
  apply (proj2 (X2_value_error_iff resp_429_bad_reset)).
  split; [reflexivity|]. split; [left; reflexivity|].
  exists "soon". split; reflexivity.
Defined.

(** *** [KeyError] *)

Ltac split_ifs :=
  repeat match goal with
         | |- context [if ?b then _ else _] => destruct b; simpl
         end.

Lemma bad_request_no_key_error (details : pyval) :
  never KeyError (BadRequestError_handle_details details).
Proof.
  unfold never, BadRequestError_handle_details.
  destruct details as [| | | |s|l|dd]; simpl; try discriminate.
  - destruct (existsb (is_str_eq "errors") l); simpl; discriminate.
  - destruct (dict_lookup "errors" dd) as [errs|]; simpl; [|discriminate].
    change (never KeyError
              (items <- py_iter errs ;;
               inner_details <- rmap handle_detail items ;;
               py_join (nl ++ tab)
                 (filter (fun detail => negb (is_none detail)) inner_details))).
    unfold handle_detail. never_tac.
Qed.

Lemma handle_error_no_key_error (r : response_t) (error : pyval) :
  never KeyError (handle_error r error).
Proof.
  unfold never.
  destruct error as [| | | |s|l|entry];
    try (rewrite handle_error_dict; discriminate);
    unfold handle_error, py_contains, py_getitem; simpl;
    try discriminate; split_ifs; discriminate.
Qed.

(** A formatter raises [KeyError] only on a mapping without the key that
    it subscripts. *)
Lemma details_key_error_inv (cls : error_cls) (r : response_t) (details : pyval) :
  handle_details cls r details = Raise KeyError ->
  exists dd,
    details = PDict dd
    /\ ((cls = AccessDeniedError /\ dict_lookup "reasons" dd = None)
        \/ (cls = NotFoundError /\ dict_lookup "type" dd = None)
        \/ (cls = UnprocessableEntityError /\ dict_lookup "errors" dd = None)).
Proof.
  destruct cls; simpl; try discriminate.
  - intros H. now apply bad_request_no_key_error in H.
  - unfold AccessDeniedError_handle_details, py_getitem.
    destruct details as [| | | |s|l|dd]; simpl; try discriminate.
    destruct (dict_lookup "reasons" dd) as [reasons|] eqn:Hk; simpl.
    + intros H. exfalso. revert H. fold (never KeyError
        (items <- py_iter reasons ;;
         joined <- py_join (nl ++ tab ++ tab) items ;;
         Ok (nl ++ tab ++ "Reasons:" ++ nl ++ tab ++ tab ++ joined))).
      never_tac.
    + intros _. exists dd. auto.
  - unfold NotFoundError_handle_details, py_getitem.
    destruct details as [| | | |s|l|dd]; simpl; try discriminate.
    destruct (dict_lookup "type" dd) as [t|] eqn:Hk; simpl.
    + destruct (dict_lookup "id" dd); discriminate.
    + intros _. exists dd. auto.
  - unfold UnprocessableEntityError_handle_details, py_getitem.
    destruct details as [| | | |s|l|dd]; simpl; try discriminate.
    destruct (dict_lookup "errors" dd) as [errs|] eqn:Hk; simpl.
    + intros H. exfalso. revert H. fold (never KeyError
        (items <- py_iter errs ;;
         errors <- rmap (handle_error r) items ;;
         Ok (nl ++ str_join nl errors))).
      apply never_rbind; [never_tac|]. intros items.
      apply never_rbind; [|intros; apply never_ok].
      apply never_rmap, handle_error_no_key_error.
    + intros _. exists dd. auto 6.
Qed.

Lemma dict_get_dict (key : string) (d dd : list (string * pyval)) :
  dict_get key d = PDict dd -> dict_lookup key d = Some (PDict dd).
Proof.
  unfold dict_get. destruct (dict_lookup key d); [now intros -> | discriminate].
Qed.

(** X3: [KeyError] leaves [get_error] exactly when the body decodes to a
    mapping whose [details] is a mapping without the key that the class of
    the status code subscripts: [reasons] for 403, [type] for 404, [errors]
    for 422.  No other class, and no other shape, raises it. *)
Theorem X3_key_error_iff (r : response_t) :
  get_error r = Raise KeyError <->
  exists d dd,
    json r = Some (PDict d)
    /\ dict_lookup "details" d = Some (PDict dd)
    /\ missing_key (status_code r) dd.
Proof.
  split.
  - unfold get_error. intros H. apply new_error_raise in H.
    destruct H as [H | [_ H]].
    + apply body_lines_raise in H.
      destruct H as [(H & _) | (d & Hj & _ & H)]; [discriminate|].
      apply details_key_error_inv in H. destruct H as (dd & Hd & Hcase).
      exists d, dd. split; [exact Hj|]. split; [now apply dict_get_dict|].
      pose proof (select_class_inv (status_code r)) as (_ & H403 & H404 & H422 & _).
      unfold missing_key.
      destruct Hcase as [[Hc Hk] | [[Hc Hk] | [Hc Hk]]]; auto 6.
    + apply extra_raise in H. destruct H as (_ & H & _). discriminate.
  - intros (d & dd & Hj & Hd & Hcase). unfold get_error.
    apply (details_key_error _ r d dd Hj Hd).
    destruct Hcase as [[-> Hk] | [[-> Hk] | [-> Hk]]]; simpl;
      unfold AccessDeniedError_handle_details, NotFoundError_handle_details,
        UnprocessableEntityError_handle_details, py_getitem;
      simpl; now rewrite Hk.
Qed.

Lemma X3_witness : get_error resp_422_no_errors = Raise KeyError.
Proof.
  apply (proj2 (X3_key_error_iff resp_422_no_errors)).
  exists [("message", PStr "Oops"); ("details", PDict []); ("requestId", PStr "r1")], [].
  split; [reflexivity|]. split; [reflexivity|].
  right. right. split; reflexivity.
Defined.

(** *** [AttributeError] *)

Lemma details_no_attribute_error (cls : error_cls) (r : response_t)
    (details : pyval) :
  cls <> BadRequestError ->
  never AttributeError (handle_details cls r details).
Proof.
  intros Hcls. destruct cls; simpl; try contradiction;
    unfold HTTPError_handle_details, AccessDeniedError_handle_details,
      UnprocessableEntityError_handle_details, handle_error;
    try solve [never_tac].
  unfold never, NotFoundError_handle_details, py_getitem, py_get.
  destruct details as [| | | |s|l|dd]; simpl; try discriminate.
  destruct (dict_lookup "type" dd); simpl; [|discriminate].
  destruct (dict_lookup "id" dd); discriminate.
Qed.

(** X4: on a status code other than 400, [AttributeError] leaves
    [get_error] exactly when the body decodes to a value that is not a
    mapping. *)
Theorem X4_attribute_error_iff (r : response_t) :
  status_code r <> 400 ->
  (get_error r = Raise AttributeError <->
   exists v, json r = Some v /\ is_dict v = false).
Proof.
  intros Hc.
  assert (Hcls : select_class (status_code r) <> BadRequestError).
  { intros H. now apply select_class_inv in H. }
  unfold get_error. rewrite new_error_raise. split.
  - intros [H | [_ H]].
    + apply body_lines_raise in H.
      destruct H as [(_ & H) | (d & _ & _ & H)]; [exact H|].
      now apply details_no_attribute_error in H.
    + apply extra_raise in H. destruct H as (_ & H & _). discriminate.
  - intros (v & Hj & Hd). left. apply (body_lines_not_dict _ r v Hj Hd).
Qed.

Lemma X4_witness : get_error resp_200_list = Raise AttributeError.
Proof.
  apply (proj2 (X4_attribute_error_iff resp_200_list ltac:(discriminate))).
  exists (PList [PInt 1]). split; reflexivity.
Defined.

(** ** The layout of the message *)

Lemma extra_reset_lines (r : response_t) (extra : list string) :
  (if has_additional_error_info (select_class (status_code r)) r
   then additional_error_info (select_class (status_code r)) r else Ok [])
  = Ok extra ->
  reset_lines r extra.
Proof.
  unfold reset_lines.
  destruct (Z.eqb_spec (status_code r) 429) as [Hc|Hc]; cbn [andb].
  - rewrite Hc. change (select_class 429) with RateLimitExceededError.
    cbn [has_additional_error_info additional_error_info].
    destruct (has_reset_time r).
    + destruct (response_reset_time r) as [n|x]; simpl; [|discriminate].
      intros H. injection H as <-. eauto.
    + intros H. now injection H as <-.
  - rewrite (extra_other_class _ r (select_class_other _ Hc)).
    intros H. now injection H as <-.
Qed.

(** X5: the message of an error built from a mapping body is, line by
    line and in this order: the status line; the Message line (the body's
    [message] when it is not null, whatever its type, the default of the
    class otherwise); the Details line when [details] is not null; the
    Request ID line when [requestId] is not null; and, for a 429 response
    that carries the reset header, the line of the reset time.  Nothing comes
    before, between or after them. *)
Theorem X5_message_layout (r : response_t) (e : http_error)
    (d : list (string * pyval)) :
  get_error r = Ok e ->
  json r = Some (PDict d) ->
  exists details_lines extra,
    details_lines_of (class_of e) r d details_lines
    /\ reset_lines r extra
    /\ message e =
         str_join nl (status_line r
                        :: message_line (class_of e) r d
                        :: details_lines ++ request_id_lines d ++ extra)%list.
Proof.
  unfold get_error. intros He Hj.
  apply new_error_inv in He.
  destruct He as (lines & extra & Hl & Hx & Hm & Hcls & _).
  rewrite (body_lines_dict _ r d Hj) in Hl. rewrite Hcls, Hm.
  unfold details_lines_of.
  destruct (is_none (dict_get "details" d)).
  - simpl in Hl. injection Hl as <-.
    exists [], extra. split; [reflexivity|].
    split; [exact (extra_reset_lines r extra Hx) | reflexivity].
  - destruct (handle_details (select_class (status_code r)) r
                (dict_get "details" d)) as [txt|x]; [|discriminate Hl].
    simpl in Hl. injection Hl as <-.
    exists ["Details: " ++ txt], extra. split; [eauto|].
    split; [exact (extra_reset_lines r extra Hx) | reflexivity].
Qed.

Lemma X5_witness :
  exists e,
    get_error resp_429_full = Ok e
    /\ message e = "HTTP status code: 429" ++ nl
                   ++ "Message: Oops" ++ nl
                   ++ "Details: [1, 'a']" ++ nl
                   ++ "Request ID: r1" ++ nl
                   ++ "Time until reset (seconds): 7".
Proof.
  eexists. split; [reflexivity|].
  destruct (X5_message_layout resp_429_full _ _ eq_refl eq_refl)
    as (dl & extra & Hd & Hx & Hm).
  rewrite Hm.
  destruct Hd as (txt & Htxt & ->). injection Htxt as <-.
  destruct Hx as (n & Hn & ->). injection Hn as <-.
  reflexivity.
Defined.

(** X6: a mapping body whose [details] is absent or null never makes the
    construction fail, whatever the class (for a 429 response, when the
    reset header is absent): the message is the status line, the Message
    line and the Request ID line if any. *)
Theorem X6_body_without_details (r : response_t) (d : list (string * pyval)) :
  json r = Some (PDict d) ->
  is_none (dict_get "details" d) = true ->
  status_code r <> 429
  \/ headers_lookup RATE_LIMIT_RESET_HEADER_KEY (headers r) = None ->
  exists e,
    get_error r = Ok e
    /\ message e =
         str_join nl (status_line r
                        :: message_line (class_of e) r d
                        :: request_id_lines d).
Proof.
  intros Hj Hn Hcase.
  assert (Hx : (if has_additional_error_info (select_class (status_code r)) r
                then additional_error_info (select_class (status_code r)) r
                else Ok []) = Ok []).
  { destruct Hcase as [Hc|Hh];
      [apply extra_other_class, select_class_other, Hc
      | apply extra_no_header, Hh]. }
  eexists. split.
  - unfold get_error. eapply new_error_intro; [|exact Hx].
    rewrite (body_lines_dict _ r d Hj), Hn. reflexivity.
  - simpl. now rewrite app_nil_r.
Qed.

Lemma X6_witness :
  exists e,
    get_error resp_409_null_message = Ok e
    /\ message e = "HTTP status code: 409" ++ nl
                   ++ "Message: Version mismatch error. The version you specified was incorrect. This may be due to someone else editing the content."
                   ++ nl ++ "Request ID: 7".
Proof.
  assert (Hc : status_code resp_409_null_message <> 429) by discriminate.
  destruct (X6_body_without_details resp_409_null_message
              [("message", PNone); ("requestId", PInt 7)]
              eq_refl eq_refl (or_introl Hc)) as (e & He & Hm).
  exists e. split; [exact He|]. rewrite Hm.
  assert (Hcls : class_of e = VersionMismatchError)
    by (injection He as <-; reflexivity).
  rewrite Hcls. reflexivity.
Defined.

(** ** The classes without a formatter of their own *)

Lemma plain_class (code : Z) (r : response_t) (details : pyval) :
  ~ In code special_codes ->
  select_class code <> RateLimitExceededError
  /\ handle_details (select_class code) r details = Ok (py_str details).
Proof.
  intros Hnot. rewrite select_class_spec. unfold spec_variant.
  repeat match goal with
         | |- context [code =? ?b] =>
             destruct (Z.eqb_spec code b);
             [first [ split; [discriminate | reflexivity]
                    | exfalso; apply Hnot; subst code; simpl; tauto ]|]
         end.
  split; [discriminate | reflexivity].
Qed.

(** X7: for a status code other than 400, 403, 404, 422 and 429 (the
    classes that keep the formatter of [HTTPError]), [get_error] returns an
    error exactly when the body does not decode or decodes to a mapping; a
    non-null [details] of any shape is shown by its stringification. *)
Theorem X7_plain_classes (r : response_t) :
  ~ In (status_code r) special_codes ->
  ((exists e, get_error r = Ok e) <-> body_readable r)
  /\ (forall d details,
        json r = Some (PDict d) ->
        dict_lookup "details" d = Some details ->
        is_none details = false ->
        details_line_is r d (py_str details)).
Proof.
  intros Hnot.
  assert (Hplain := fun details => plain_class (status_code r) r details Hnot).
  destruct (Hplain PNone) as [Hcls _].
  assert (Hline : forall d details,
             json r = Some (PDict d) ->
             dict_lookup "details" d = Some details ->
             is_none details = false ->
             details_line_is r d (py_str details)).
  { intros d details Hj Hd Hn.
    apply (details_line_intro r d details _ Hcls Hj Hd Hn).
    apply Hplain. }
  split; [|exact Hline].
  split.
  - intros [e He]. unfold get_error in He. apply new_error_inv in He.
    destruct He as (lines & _ & Hl & _). exact (body_lines_readable _ r lines Hl).
  - intros [Hj | [d Hj]].
    + eexists. unfold get_error.
      apply (new_error_intro _ r _ _ (body_lines_unparsed _ r Hj)
               (extra_other_class _ r Hcls)).
    + destruct (is_none (dict_get "details" d)) eqn:Hn;
        eexists; unfold get_error;
        (eapply new_error_intro; [|apply (extra_other_class _ r Hcls)]);
        rewrite (body_lines_dict _ r d Hj), Hn,
          ?(proj2 (Hplain (dict_get "details" d)));
        reflexivity.
Qed.

Lemma X7_witness :
  details_line_is resp_500_details
    [("message", PStr "Oops"); ("details", PDict [("k", PInt 1)]);
     ("requestId", PStr "r1")]
    "{'k': 1}".
Proof.
  assert (Hnot : ~ In (status_code resp_500_details) special_codes).
  { simpl. intros H. repeat (destruct H as [H|H]; [discriminate H|]). exact H. }
  apply (proj2 (X7_plain_classes resp_500_details Hnot)
           [("message", PStr "Oops"); ("details", PDict [("k", PInt 1)]);
            ("requestId", PStr "r1")]
           (PDict [("k", PInt 1)]) eq_refl eq_refl eq_refl).
Defined.

(** ** The details of a 403 response *)

Lemma rmap_as_str_strings (strs : list string) :
  rmap as_str (map PStr strs) = Ok strs.
Proof.
  induction strs as [|s strs IH]; [reflexivity|].
  cbn [map rmap as_str rbind]. now rewrite IH.
Qed.

Lemma rmap_as_str_cases (items : list pyval) :
  (exists strs, rmap as_str items = Ok strs)
  \/ rmap as_str items = Raise TypeError.
Proof.
  induction items as [|v items IH]; [left; now exists []|].
  cbn [rmap]. destruct v; cbn [as_str rbind]; try now right.
  destruct IH as [[strs ->] | ->]; cbn [rbind]; [left; eauto | now right].
Qed.

Lemma rmap_as_str_not_all (items : list pyval) :
  forallb string_class items = false ->
  rmap as_str items = Raise TypeError.
Proof.
  induction items as [|v items IH]; [discriminate|].
  cbn [forallb rmap]. destruct v; cbn [string_class as_str rbind andb];
    try reflexivity.
  intros H. now rewrite (IH H).
Qed.

(** X8: on a 403 response whose [details] is a mapping with a [reasons]
    list, the Details text is a newline, a tab, "Reasons:", a newline and two
    tabs, followed by the reasons joined by a newline and two tabs, when
    every reason is a string (an empty list leaves the heading alone); a
    reason that is not a string makes the construction raise
    [TypeError]. *)
Theorem X8_access_denied_details (r : response_t) (d dd : list (string * pyval))
    (reasons : list pyval) :
  status_code r = 403 ->
  json r = Some (PDict d) ->
  dict_lookup "details" d = Some (PDict dd) ->
  dict_lookup "reasons" dd = Some (PList reasons) ->
  (forall strs,
     reasons = map PStr strs ->
     details_line_is r d
       (nl ++ tab ++ "Reasons:" ++ nl ++ tab ++ tab
           ++ str_join (nl ++ tab ++ tab) strs))
  /\ (forallb string_class reasons = false -> get_error r = Raise TypeError).
Proof.
  intros Hc Hj Hd Hr.
  assert (Hcls : select_class (status_code r) = AccessDeniedError) by now rewrite Hc.
  assert (Hne : select_class (status_code r) <> RateLimitExceededError)
    by (rewrite Hcls; discriminate).
  split.
  - intros strs ->.
    apply (details_line_intro r d (PDict dd) _ Hne Hj Hd eq_refl).
    rewrite Hcls. cbn [handle_details].
    unfold AccessDeniedError_handle_details, py_getitem, py_join.
    rewrite Hr. cbn [rbind py_iter]. rewrite rmap_as_str_strings. reflexivity.
  - intros Hbad.
    apply (details_raise r d (PDict dd) TypeError Hj Hd eq_refl).
    rewrite Hcls. cbn [handle_details].
    unfold AccessDeniedError_handle_details, py_getitem, py_join.
    rewrite Hr. cbn [rbind py_iter]. now rewrite (rmap_as_str_not_all _ Hbad).
Qed.

Lemma X8_witness :
  details_line_is resp_403_reasons
    [("message", PStr "Oops");
     ("details", PDict [("reasons", PList [PStr "a"; PStr "b"])]);
     ("requestId", PStr "r1")]
    (nl ++ tab ++ "Reasons:" ++ nl ++ tab ++ tab ++ "a" ++ nl ++ tab ++ tab ++ "b")
  /\ get_error resp_403_bad_reason = Raise TypeError.
Proof.
  split.
  - apply (proj1 (X8_access_denied_details resp_403_reasons _ _
                    [PStr "a"; PStr "b"] eq_refl eq_refl eq_refl eq_refl)
             ["a"; "b"] eq_refl).
  - apply (proj2 (X8_access_denied_details resp_403_bad_reason _ _
                    [PStr "a"; PInt 1] eq_refl eq_refl eq_refl eq_refl)
             eq_refl).
Defined.

(** X9: the formatters of 403 and 422 subscript [details] at once: a
    non-null [details] that is not a mapping, a plain string included,
    makes the construction raise [TypeError] (the formatters of 400 and 404
    return a string as it is). *)
Theorem X9_details_must_be_mapping (r : response_t) (d : list (string * pyval))
    (details : pyval) :
  status_code r = 403 \/ status_code r = 422 ->
  json r = Some (PDict d) ->
  dict_lookup "details" d = Some details ->
  is_none details = false ->
  is_dict details = false ->
  get_error r = Raise TypeError.
Proof.
  intros Hc Hj Hd Hn Hdict.
  apply (details_raise r d details TypeError Hj Hd Hn).
  destruct Hc as [-> | ->];
    destruct details; try discriminate Hn; try discriminate Hdict; reflexivity.
Qed.

Lemma X9_witness : get_error resp_403_string = Raise TypeError.
Proof.
  apply (X9_details_must_be_mapping resp_403_string
           [("message", PStr "Oops"); ("details", PStr "forbidden");
            ("requestId", PStr "r1")]
           (PStr "forbidden") (or_introl eq_refl) eq_refl eq_refl eq_refl eq_refl).
Defined.

(** ** The reset time of a constructed error *)

(** X10: once [get_error] has returned the error of a 429 response,
    [reset_time] agrees with the message: either the reset header is absent,
    [reset_time] raises [KeyError] and the message carries no additional
    line, or [reset_time] returns an integer [n] and the message ends with
    the line "Time until reset (seconds): n", [n] being written in
    canonical decimal whatever the spelling of the header.  It never raises
    [ValueError] on a constructed error. *)
Theorem X10_reset_time_agrees (r : response_t) (e : http_error) :
  status_code r = 429 ->
  get_error r = Ok e ->
  exists lines,
    body_lines RateLimitExceededError r = Ok lines
    /\ ((headers_lookup RATE_LIMIT_RESET_HEADER_KEY (headers r) = None
         /\ reset_time e = Raise KeyError
         /\ message e = str_join nl lines)
        \/ (exists v n,
              headers_lookup RATE_LIMIT_RESET_HEADER_KEY (headers r) = Some v
              /\ py_int v = Ok n
              /\ reset_time e = Ok n
              /\ message e = str_join nl lines ++ nl
                             ++ "Time until reset (seconds): " ++ str_of_Z n)).
Proof.
  intros Hc He. unfold get_error in He. rewrite Hc in He.
  change (select_class 429) with RateLimitExceededError in He.
  apply new_error_inv in He.
  destruct He as (lines & extra & Hl & Hx & Hm & Hcls & Hr & _).
  exists lines. split; [exact Hl|].
  unfold reset_time, response_reset_time, headers_getitem. rewrite Hcls, Hr.
  destruct (headers_lookup RATE_LIMIT_RESET_HEADER_KEY (headers r)) as [v|] eqn:Hh.
  - right. cbn [rbind]. destruct (py_int_cases v) as [[n Hn] | Hn].
    + rewrite (extra_with_header r v n Hh Hn) in Hx. injection Hx as <-.
      exists v, n. repeat split; [exact Hn | now rewrite Hn |].
      rewrite Hm. apply str_join_snoc.
      destruct (body_lines_shape _ r lines Hl) as [tail ->]. discriminate.
    + exfalso.
      assert (Hraise : (if has_additional_error_info RateLimitExceededError r
                        then additional_error_info RateLimitExceededError r
                        else Ok []) = Raise ValueError)
        by (apply extra_raise; eauto).
      congruence.
  - left. rewrite (extra_no_header _ r Hh) in Hx. injection Hx as <-.
    repeat split. now rewrite Hm, app_nil_r.
Qed.

Lemma X10_witness :
  exists e,
    get_error resp_429_full = Ok e
    /\ reset_time e = Ok 7
    /\ exists before,
         message e = before ++ nl ++ "Time until reset (seconds): 7".
Proof.
  eexists. split; [reflexivity|].
  destruct (X10_reset_time_agrees resp_429_full _ eq_refl eq_refl)
    as (lines & Hl & [(Hh & _) | (v & n & Hh & Hn & Ht & Hm)]);
    [discriminate Hh|].
  injection Hh as <-. injection Hn as <-.
  split; [exact Ht|]. exists (str_join nl lines). exact Hm.
Defined.

(** ** The entries of a 400 response *)

Lemma handle_detail_entry (entry : pyval) :
  if str_or_dict entry
  then exists inner, handle_detail entry = Ok inner
  else handle_detail entry = Raise AttributeError.
Proof.
  unfold handle_detail, str_or_dict.
  destruct entry; cbn [string_class is_dict orb py_get]; eauto.
  destruct (dict_lookup "details" d); eauto.
Qed.

Lemma rmap_handle_detail_bad (entries : list pyval) :
  forallb str_or_dict entries = false ->
  rmap handle_detail entries = Raise AttributeError.
Proof.
  induction entries as [|entry entries IH]; [discriminate|].
  cbn [forallb rmap]. pose proof (handle_detail_entry entry) as He.
  destruct (str_or_dict entry); cbn [andb].
  - destruct He as [inner ->]. intros H. now rewrite (IH H).
  - now rewrite He.
Qed.

Lemma rmap_handle_detail_bad_subfield (entries : list pyval) :
  forallb str_or_dict entries = true ->
  forallb detail_entry_ok entries = false ->
  exists inner,
    rmap handle_detail entries = Ok inner
    /\ rmap as_str (filter (fun detail => negb (is_none detail)) inner)
       = Raise TypeError.
Proof.
  induction entries as [|entry entries IH]; [discriminate 2|].
  cbn [forallb rmap]. intros Hshape Hok.
  apply andb_true_iff in Hshape. destruct Hshape as [Hs Hrest].
  destruct entry as [| | | |s|l|ed]; try discriminate Hs.
  - cbn [detail_entry_ok andb] in Hok.
    destruct (IH Hrest Hok) as (inner & -> & Hstr).
    exists (PStr s :: inner). split; [reflexivity|].
    cbn [filter is_none negb rmap as_str rbind]. now rewrite Hstr.
  - change (handle_detail (PDict ed)) with (py_get (PDict ed) "details").
    rewrite py_get_dict. cbn [rbind].
    cbn [detail_entry_ok] in Hok.
    destruct (forallb detail_entry_ok entries) eqn:Hall.
    + destruct (bad_request_entries entries Hall) as (inner & -> & _).
      exists (dict_get "details" ed :: inner). split; [reflexivity|].
      destruct (dict_get "details" ed); try discriminate Hok; reflexivity.
    + destruct (IH Hrest eq_refl) as (inner & -> & Hstr).
      exists (dict_get "details" ed :: inner). split; [reflexivity|].
      destruct (dict_get "details" ed);
        cbn [filter is_none negb rmap as_str rbind]; rewrite ?Hstr; reflexivity.
Qed.

(** X11: on a 400 response whose [details] is a mapping with an [errors]
    list, an entry that is neither a string nor a mapping (a number, a list,
    a null) makes the construction raise [AttributeError]; when every entry
    is a string or a mapping but a mapping has a [details] sub-field that is
    neither a string nor null, the join raises [TypeError]. *)
Theorem X11_bad_request_entry_errors (r : response_t)
    (d dd : list (string * pyval)) (entries : list pyval) :
  status_code r = 400 ->
  json r = Some (PDict d) ->
  dict_lookup "details" d = Some (PDict dd) ->
  dict_lookup "errors" dd = Some (PList entries) ->
  (forallb str_or_dict entries = false -> get_error r = Raise AttributeError)
  /\ (forallb str_or_dict entries = true ->
      forallb detail_entry_ok entries = false ->
      get_error r = Raise TypeError).
Proof.
  intros Hc Hj Hd Herr.
  assert (Hcls : select_class (status_code r) = BadRequestError) by now rewrite Hc.
  split.
  - intros Hbad.
    apply (details_raise r d (PDict dd) AttributeError Hj Hd eq_refl).
    rewrite Hcls. cbn [handle_details].
    unfold BadRequestError_handle_details, py_contains, py_getitem.
    cbn [string_class]. rewrite Herr. cbn [rbind py_iter].
    now rewrite (rmap_handle_detail_bad entries Hbad).
  - intros Hshape Hbad.
    destruct (rmap_handle_detail_bad_subfield entries Hshape Hbad)
      as (inner & Hin & Hstr).
    apply (details_raise r d (PDict dd) TypeError Hj Hd eq_refl).
    rewrite Hcls. cbn [handle_details].
    unfold BadRequestError_handle_details, py_contains, py_getitem, py_join.
    cbn [string_class]. rewrite Herr. cbn [rbind py_iter].
    rewrite Hin. cbn [rbind]. now rewrite Hstr.
Qed.

Lemma X11_witness :
  get_error resp_400_bad_entry = Raise AttributeError
  /\ get_error resp_400_bad_subfield = Raise TypeError.
Proof.
  split.
  - apply (proj1 (X11_bad_request_entry_errors resp_400_bad_entry _ _
                    [PStr "abc"; PInt 1] eq_refl eq_refl eq_refl eq_refl)
             eq_refl).
  - apply (proj2 (X11_bad_request_entry_errors resp_400_bad_subfield _ _
                    [PStr "abc"; PDict [("details", PInt 1)]]
                    eq_refl eq_refl eq_refl eq_refl)
             eq_refl eq_refl).
Defined.

Lemma strings_entries_ok (strs : list string) :
  forallb detail_entry_ok (map PStr strs) = true.
Proof. induction strs as [|s strs IH]; [reflexivity | exact IH]. Qed.

Lemma detail_texts_strings (strs : list string) :
  detail_texts (map PStr strs) = strs.
Proof.
  induction strs as [|s strs IH]; [reflexivity|].
  cbn [map detail_texts detail_entry_text]. now rewrite IH.
Qed.

Lemma bad_request_strings (dd : list (string * pyval)) (errs : pyval)
    (strs : list string) :
  dict_lookup "errors" dd = Some errs ->
  py_iter errs = Ok (map PStr strs) ->
  BadRequestError_handle_details (PDict dd) = Ok (str_join (nl ++ tab) strs).
Proof.
  intros Herr Hiter.
  pose proof (strings_entries_ok strs) as Hok.
  pose proof (detail_texts_strings strs) as Htexts.
  destruct (bad_request_entries _ Hok) as (inner & Hin & Hstr).
  unfold BadRequestError_handle_details, py_contains, py_getitem, py_join.
  cbn [string_class]. rewrite Herr. cbn [rbind]. rewrite Hiter. cbn [rbind].
  rewrite Hin. cbn [rbind]. rewrite Hstr, Htexts. reflexivity.
Qed.

(** X12: the 400 formatter iterates whatever [details.errors] holds: when
    it is a mapping and not a list, the Details text is its keys joined by a
    newline and a tab, the values being ignored; a number, a boolean or a
    null is not iterable and makes the construction raise [TypeError]. *)
Theorem X12_bad_request_errors_not_a_list (r : response_t)
    (d dd : list (string * pyval)) (errs : pyval) :
  status_code r = 400 ->
  json r = Some (PDict d) ->
  dict_lookup "details" d = Some (PDict dd) ->
  dict_lookup "errors" dd = Some errs ->
  (forall ed, errs = PDict ed ->
     details_line_is r d (str_join (nl ++ tab) (map fst ed)))
  /\ (is_scalar errs = true \/ errs = PNone -> get_error r = Raise TypeError).
Proof.
  intros Hc Hj Hd Herr.
  assert (Hcls : select_class (status_code r) = BadRequestError) by now rewrite Hc.
  assert (Hne : select_class (status_code r) <> RateLimitExceededError)
    by (rewrite Hcls; discriminate).
  split.
  - intros ed ->.
    apply (details_line_intro r d (PDict dd) _ Hne Hj Hd eq_refl).
    rewrite Hcls. cbn [handle_details].
    apply (bad_request_strings dd (PDict ed) (map fst ed) Herr).
    cbn [py_iter]. now rewrite map_map.
  - intros Hshape.
    apply (details_raise r d (PDict dd) TypeError Hj Hd eq_refl).
    rewrite Hcls. cbn [handle_details].
    unfold BadRequestError_handle_details, py_contains, py_getitem.
    cbn [string_class]. rewrite Herr. cbn [rbind].
    destruct Hshape as [Hs | ->]; [|reflexivity].
    destruct errs; try discriminate Hs; reflexivity.
Qed.

Lemma X12_witness :
  details_line_is resp_400_errors_mapping
    [("message", PStr "Oops");
     ("details",
      PDict [("errors", PDict [("title", PStr "required"); ("slug", PInt 2)])]);
     ("requestId", PStr "r1")]
    ("title" ++ nl ++ tab ++ "slug")
  /\ get_error resp_400_errors_number = Raise TypeError.
Proof.
  split.
  - apply (proj1 (X12_bad_request_errors_not_a_list resp_400_errors_mapping _ _
                    (PDict [("title", PStr "required"); ("slug", PInt 2)])
                    eq_refl eq_refl eq_refl eq_refl) _ eq_refl).
  - apply (proj2 (X12_bad_request_errors_not_a_list resp_400_errors_number _ _
                    (PInt 3) eq_refl eq_refl eq_refl eq_refl)).
    left. reflexivity.
Defined.

(** ** [TypeError] *)

(** X13: [TypeError] leaves [get_error] only from the formatter of a class
    that has one of its own: the status code is 400, 403, 404 or 422 and the
    body is a mapping with a non-null [details]. *)
Theorem X13_type_error_only_from_formatters (r : response_t) :
  get_error r = Raise TypeError ->
  In (status_code r) [400; 403; 404; 422]
  /\ exists d, json r = Some (PDict d)
               /\ is_none (dict_get "details" d) = false.
Proof.
  unfold get_error. intros H. apply new_error_raise in H.
  destruct H as [H | [_ H]].
  - apply body_lines_raise in H.
    destruct H as [(H & _) | (d & Hj & Hn & H)]; [discriminate|].
    split; [|eauto].
    pose proof (select_class_inv (status_code r))
      as (H400 & H403 & H404 & H422 & _).
    destruct (select_class (status_code r)); try discriminate H;
      [rewrite H400 | rewrite H403 | rewrite H404 | rewrite H422];
      simpl; tauto.
  - apply extra_raise in H. destruct H as (_ & H & _). discriminate.
Qed.

Lemma X13_witness :
  In (status_code resp_403_string) [400; 403; 404; 422]
  /\ exists d, json resp_403_string = Some (PDict d)
               /\ is_none (dict_get "details" d) = false.
Proof.
  apply (X13_type_error_only_from_formatters resp_403_string). reflexivity.
Defined.
